(** * ISIS integrated-current log: integrity checker and query surface

    A shallow embedding of [txt_to_pandas_dataframe.py].

    Conventions of the embedding.
    - A float64 cell is an exact rational ([Q]); the one non-finite value the
      queries can produce themselves, the NaN of an empty mean, is kept
      ([fval]).  Rounding is not modelled.
    - A [Date] cell is a midnight timestamp, held as its day number counted
      from 1970-01-01 (what [pd.to_datetime] gives for a calendar date).
    - The DataFrame handed over by [text_to_pandas_dataframe] has the default
      RangeIndex, so an index label is a position; a table is the list of its
      rows.
    - A Python function is a computation in [Py]: the lines it printed, and
      either the value it returned or the exception it raised.  Python's
      [None] result is [None] of an [option]. *)

From Stdlib Require Import ZArith QArith Qabs List String Ascii Bool Lia.
Import ListNotations.

Local Open Scope string_scope.
Local Open Scope Z_scope.

(* ================================================================== *)
(** ** Python computations: printed output and exceptions *)

Inductive exn : Type :=
| AssertionError (msg : option string)
| TypeError (msg : string)
| KeyError (key : string)
| IndexError (msg : string).

Inductive res (A : Type) : Type :=
| Ok (v : A)
| Raise (e : exn).

Arguments Ok {A} v.
Arguments Raise {A} e.

Definition Py (A : Type) : Type := (list string * res A)%type.

Definition ret {A} (v : A) : Py A := ([], Ok v).

Definition raise {A} (e : exn) : Py A := ([], Raise e).

Definition print (line : string) : Py unit := ([line], Ok tt).

Definition bind {A B} (m : Py A) (k : A -> Py B) : Py B :=
  match m with
  | (out, Ok v) => let (out', r) := k v in ((out ++ out')%list, r)
  | (out, Raise e) => (out, Raise e)
  end.

Notation "x <- m ;; k" := (bind m (fun x => k))
  (at level 61, m at next level, right associativity).
Notation "m ;;; k" := (bind m (fun _ => k))
  (at level 61, right associativity).

(** [assert cond, msg] *)
Definition assert (cond : bool) (msg : option string) : Py unit :=
  if cond then ret tt else raise (AssertionError msg).

(** [for x in xs: body] *)
Fixpoint for_ {A} (xs : list A) (body : A -> Py unit) : Py unit :=
  match xs with
  | [] => ret tt
  | x :: xs' => body x ;;; for_ xs' body
  end.

Definition outcome {A} (m : Py A) : res A := snd m.

(** The function returned normally (whatever it printed). *)
Definition returns {A} (m : Py A) (v : A) : Prop := outcome m = Ok v.

(** The function raised. *)
Definition raises {A} (m : Py A) (e : exn) : Prop := outcome m = Raise e.

(* ================================================================== *)
(** ** Numbers *)

(** A float64 produced by a query: finite, or NaN. *)
Inductive fval : Type :=
| Fin (q : Q)
| NaN.

Definition fadd (a b : fval) : fval :=
  match a, b with
  | Fin x, Fin y => Fin (x + y)
  | _, _ => NaN
  end.

Definition fmul (a b : fval) : fval :=
  match a, b with
  | Fin x, Fin y => Fin (x * y)
  | _, _ => NaN
  end.

(** Division; every divisor of the program is a non-zero constant. *)
Definition fdiv (a b : fval) : fval :=
  match a, b with
  | Fin x, Fin y => Fin (x / y)
  | _, _ => NaN
  end.

(** [a > 0]; a comparison with NaN is false. *)
Definition fgt0 (a : fval) : bool :=
  match a with
  | Fin x => negb (Qle_bool x 0)
  | NaN => false
  end.

(** [ndarray.sum()]: accumulation from 0.0. *)
Definition np_sum (xs : list fval) : fval := fold_left fadd xs (Fin 0).

(** [Series.cumsum()] of a finite column. *)
Fixpoint cumsum_from (acc : Q) (xs : list Q) : list Q :=
  match xs with
  | [] => []
  | x :: xs' => (acc + x)%Q :: cumsum_from (acc + x)%Q xs'
  end.

Definition cumsum (xs : list Q) : list Q := cumsum_from 0%Q xs.

(** [numpy.isclose(a, b, atol=atol)], element-wise on finite values:
    [absolute(a - b) <= atol + rtol * absolute(b)], where [rtol] keeps
    numpy's default [1e-05]. *)
Definition default_rtol : Q := 1e-5%Q.

Definition isclose1 (atol : Q) (a b : Q) : bool :=
  Qle_bool (Qabs (a - b)) (atol + default_rtol * Qabs b)%Q.

Fixpoint isclose (atol : Q) (a b : list Q) : list bool :=
  match a, b with
  | x :: a', y :: b' => isclose1 atol x y :: isclose atol a' b'
  | _, _ => []
  end.

(** [.all()] and [.any()] of a boolean array. *)
Definition all (bs : list bool) : bool := forallb (fun b => b) bs.
Definition any (bs : list bool) : bool := existsb (fun b => b) bs.

(** [Series.is_monotonic_increasing]: no value is below its predecessor. *)
Fixpoint is_monotonic_increasing (xs : list Q) : bool :=
  match xs with
  | [] => true
  | x :: xs' =>
      match xs' with
      | [] => true
      | y :: _ => Qle_bool x y && is_monotonic_increasing xs'
      end
  end.

(** [Series.duplicated()]: marks every value already seen at an earlier
    position. *)
Fixpoint duplicated_from (seen : list Q) (xs : list Q) : list bool :=
  match xs with
  | [] => []
  | x :: xs' => existsb (Qeq_bool x) seen :: duplicated_from (x :: seen) xs'
  end.

Definition duplicated (xs : list Q) : list bool := duplicated_from [] xs.

(* ================================================================== *)
(** ** The record table *)

Definition Date : Type := Z.

Record Row : Type := mkRow {
  julian : Z;            (* "Modified Julian day no." *)
  date : Date;           (* "Date" *)
  mah_sync : Q;          (* "Milliamp-hours (Sync)" *)
  mah_ts1 : Q;           (* "Milliamp-hours (TS-1)" *)
  mah_ts2 : Q;           (* "Milliamp-hours (TS-2)" *)
  cum_sync : Q;          (* "Cumulative milliamp-hours (Sync)" *)
  cum_ts1 : Q;           (* "Cumulative milliamp-hours (TS-1)" *)
  cum_ts2 : Q            (* "Cumulative milliamp-hours (TS-2)" *)
}.

Definition Table : Type := list Row.

Definition col_julian : string := "Modified Julian day no.".
Definition col_mah (target : string) : string :=
  "Milliamp-hours (" ++ target ++ ")".
Definition col_cum (target : string) : string :=
  "Cumulative milliamp-hours (" ++ target ++ ")".

(** The numeric cell of a row under a column name, if the frame has that
    column. *)
Definition cell (column : string) : option (Row -> Q) :=
  if (column =? col_julian)%string then Some (fun r => inject_Z (julian r))
  else if (column =? col_mah "Sync")%string then Some mah_sync
  else if (column =? col_mah "TS-1")%string then Some mah_ts1
  else if (column =? col_mah "TS-2")%string then Some mah_ts2
  else if (column =? col_cum "Sync")%string then Some cum_sync
  else if (column =? col_cum "TS-1")%string then Some cum_ts1
  else if (column =? col_cum "TS-2")%string then Some cum_ts2
  else None.

(** [data[column]] for a numeric column; a missing column is a KeyError. *)
Definition get_column (data : Table) (column : string) : Py (list Q) :=
  match cell column with
  | Some f => ret (map f data)
  | None => raise (KeyError column)
  end.

(* ================================================================== *)
(** ** data_integrity_check *)

Definition sorted_checks : list string :=
  [ "Modified Julian day no.";
    "Cumulative milliamp-hours (TS-2)" ].

Definition data_integrity_check (data : Table) : Py unit :=
  (* the expected columns never decrease in value *)
  for_ sorted_checks (fun column =>
    values <- get_column data column ;;
    assert (is_monotonic_increasing values)
           (Some (column ++ " is not sorted"))) ;;;
  (* the cumulative columns agree with the summed-up daily columns *)
  for_ ["Sync"; "TS-1"; "TS-2"] (fun target =>
    daily <- get_column data (col_mah target) ;;
    cumulative <- get_column data (col_cum target) ;;
    assert (all (isclose 0.1%Q (cumsum daily) cumulative)) None) ;;;
  (* no duplicates *)
  days <- get_column data "Modified Julian day no." ;;
  assert (negb (any (duplicated days))) (Some "Duplicated dates found").

(* ================================================================== *)
(** ** Calendar windows of [DataFrame.resample]

    [resample("W")] groups by weeks that end on a Sunday and
    [resample("M")] by calendar months; both label a window by its last
    day.  A window is numbered here by an ordinal ([period_key]) that grows
    by one from a window to the next. *)

Module Calendar.

(** 1970-01-04, day 3, was a Sunday: the week of day [d] ends on the first
    Sunday not before [d]. *)
Definition week_key (d : Date) : Z := (d + 3) / 7.
Definition week_label (k : Z) : Date := 7 * k + 3.

(** The proleptic Gregorian date of a day number, in years of 12 months that
    start in March and eras of 400 years (146097 days). *)
Definition civil_from_days (d : Date) : Z * Z * Z :=
  let z := d + 719468 in
  let era := z / 146097 in
  let doe := z mod 146097 in
  let yoe := (doe - doe / 1460 + doe / 36524 - doe / 146096) / 365 in
  let doy := doe - (365 * yoe + yoe / 4 - yoe / 100) in
  let mp := (5 * doy + 2) / 153 in
  let day := doy - (153 * mp + 2) / 5 + 1 in
  let month := if mp <? 10 then mp + 3 else mp - 9 in
  let year := yoe + era * 400 + (if month <=? 2 then 1 else 0) in
  (year, month, day).

Definition days_from_civil (year month day : Z) : Date :=
  let y := if month <=? 2 then year - 1 else year in
  let era := y / 400 in
  let yoe := y mod 400 in
  let mp := if month <=? 2 then month + 9 else month - 3 in
  let doy := (153 * mp + 2) / 5 + day - 1 in
  let doe := yoe * 365 + yoe / 4 - yoe / 100 + doy in
  era * 146097 + doe - 719468.

(** Months are numbered [12 * year + (month - 1)]. *)
Definition month_key (d : Date) : Z :=
  let '(year, month, _) := civil_from_days d in 12 * year + (month - 1).

(** The last day of month [k]: the day before the first of month [k + 1]. *)
Definition month_label (k : Z) : Date :=
  days_from_civil ((k + 1) / 12) ((k + 1) mod 12 + 1) 1 - 1.

End Calendar.

Inductive Rule : Type :=
| W   (* weekly, weeks ending on Sunday *)
| M.  (* month end *)

Definition period_key (rule : Rule) (d : Date) : Z :=
  match rule with
  | W => Calendar.week_key d
  | M => Calendar.month_key d
  end.

Definition period_label (rule : Rule) (k : Z) : Date :=
  match rule with
  | W => Calendar.week_label k
  | M => Calendar.month_label k
  end.

(* ================================================================== *)
(** ** Resampled frames *)

(** One row of a resampled frame: the window's label is the index, and
    every numeric column holds the window's reduced value. *)
Record Bucket : Type := mkBucket {
  window_end : Date;
  b_julian : fval;
  b_mah_sync : fval;
  b_mah_ts1 : fval;
  b_mah_ts2 : fval;
  b_cum_sync : fval;
  b_cum_ts1 : fval;
  b_cum_ts2 : fval
}.

(** What [get_sliced_data] hands back: rows of the table themselves, or
    the rows of a resampled frame. *)
Inductive DataFrame : Type :=
| Records (rows : list Row)
| Resampled (buckets : list Bucket).

Definition bucket_cell (column : string) : option (Bucket -> fval) :=
  if (column =? col_julian)%string then Some b_julian
  else if (column =? col_mah "Sync")%string then Some b_mah_sync
  else if (column =? col_mah "TS-1")%string then Some b_mah_ts1
  else if (column =? col_mah "TS-2")%string then Some b_mah_ts2
  else if (column =? col_cum "Sync")%string then Some b_cum_sync
  else if (column =? col_cum "TS-1")%string then Some b_cum_ts1
  else if (column =? col_cum "TS-2")%string then Some b_cum_ts2
  else None.

(** [frame[column].values] *)
Definition column_values (frame : DataFrame) (column : string)
  : Py (list fval) :=
  match frame with
  | Records rows =>
      values <- get_column rows column ;; ret (map Fin values)
  | Resampled buckets =>
      match bucket_cell column with
      | Some f => ret (map f buckets)
      | None => raise (KeyError column)
      end
  end.

(** The reductions of a window: [.sum()] of no value is 0, [.mean()] of no
    value is NaN. *)
Definition Qsum (xs : list Q) : Q := fold_left Qplus xs 0%Q.

Definition group_sum (xs : list Q) : fval := Fin (Qsum xs).

Definition group_mean (xs : list Q) : fval :=
  match xs with
  | [] => NaN
  | _ :: _ => Fin (Qsum xs / inject_Z (Z.of_nat (List.length xs)))
  end.

Definition reduce_window (reduction : list Q -> fval)
  (label : Date) (members : list Row) : Bucket :=
  {| window_end := label;
     b_julian := reduction (map (fun r => inject_Z (julian r)) members);
     b_mah_sync := reduction (map mah_sync members);
     b_mah_ts1 := reduction (map mah_ts1 members);
     b_mah_ts2 := reduction (map mah_ts2 members);
     b_cum_sync := reduction (map cum_sync members);
     b_cum_ts1 := reduction (map cum_ts1 members);
     b_cum_ts2 := reduction (map cum_ts2 members) |}.

(** The integers [lo, lo + 1, ..., hi]. *)
Definition Zrange (lo hi : Z) : list Z :=
  map (fun i => lo + Z.of_nat i) (seq 0 (Z.to_nat (hi - lo + 1))).

(** The rows of a frame whose date falls in window [k]. *)
Definition members (rule : Rule) (rows : list Row) (k : Z) : list Row :=
  filter (fun r => period_key rule (date r) =? k) rows.

Definition first_window (rule : Rule) (rows : list Row) : option Z :=
  match rows with
  | [] => None
  | r :: rows' =>
      Some (fold_left Z.min (map (fun r => period_key rule (date r)) rows')
              (period_key rule (date r)))
  end.

Definition last_window (rule : Rule) (rows : list Row) : option Z :=
  match rows with
  | [] => None
  | r :: rows' =>
      Some (fold_left Z.max (map (fun r => period_key rule (date r)) rows')
              (period_key rule (date r)))
  end.

(** [frame.resample(rule, on="Date")]: every window from the earliest one
    that holds a row to the latest one that does, each with the rows that
    fall in it.  pandas lays the bins out over the whole span, so a window
    in between is present also when no row falls in it. *)
Definition resample (rule : Rule) (rows : list Row)
  : list (Date * list Row) :=
  match first_window rule rows, last_window rule rows with
  | Some lo, Some hi =>
      map (fun k => (period_label rule k, members rule rows k))
          (Zrange lo hi)
  | _, _ => []
  end.

(** [.sum(numeric_only=True)] and [.mean(numeric_only=True)] of a
    resampler. *)
Definition resample_sum (groups : list (Date * list Row)) : list Bucket :=
  map (fun g => reduce_window group_sum (fst g) (snd g)) groups.

Definition resample_mean (groups : list (Date * list Row)) : list Bucket :=
  map (fun g => reduce_window group_mean (fst g) (snd g)) groups.

(* ================================================================== *)
(** ** get_sliced_data *)

(** [x in column.values] *)
Definition date_in (d : Date) (data : Table) : bool :=
  existsb (fun r => date r =? d) data.

(** [data.index[data["Date"] == d].values]: the positions holding [d]. *)
Fixpoint index_where (d : Date) (data : Table) (pos : nat) : list nat :=
  match data with
  | [] => []
  | r :: data' =>
      if date r =? d then pos :: index_where d data' (S pos)
      else index_where d data' (S pos)
  end.

(** [values[0]] *)
Definition item0 {A} (values : list A) : Py A :=
  match values with
  | v :: _ => ret v
  | [] => raise (IndexError "index 0 is out of bounds for axis 0 with size 0")
  end.

(** [data.iloc[start:stop]] for positions within the frame. *)
Definition iloc (data : Table) (start stop : nat) : Table :=
  firstn (stop - start) (skipn start data).

Definition invalid_frequency : string :=
  "Invalid frequency" ++ String "010"%char
  "(Only: Daily, Weekly, or Monthly allowed)".

Definition get_sliced_data (data : Table) (start_date end_date : Date)
  (frequency : string) (is_averaged : bool) : Py (option DataFrame) :=
  if negb (date_in start_date data) then
    print "Invalid start_date" ;;; ret None
  else if negb (date_in end_date data) then
    print "Invalid end_date" ;;; ret None
  else
    (* Defining the slice *)
    start_index <- item0 (index_where start_date data 0) ;;
    end_index <- item0 (index_where end_date data 0) ;;
    if (end_index <? start_index)%nat then
      print "end_date can not be before start_date" ;;; ret None
    else
      (* Grabs the desired slice of the database *)
      let slice := iloc data start_index (end_index + 1) in
      if (frequency =? "Daily")%string then
        ret (Some (Records slice))
      else if (frequency =? "Weekly")%string then
        if is_averaged then
          ret (Some (Resampled (resample_mean (resample W slice))))
        else
          ret (Some (Resampled (resample_sum (resample W slice))))
      else if (frequency =? "Monthly")%string then
        if is_averaged then
          ret (Some (Resampled (resample_mean (resample M slice))))
        else
          ret (Some (Resampled (resample_sum (resample M slice))))
      else
        print invalid_frequency ;;; ret None.

(* ================================================================== *)
(** ** get_integrated_current and the derived quantities *)

(** A query answers with one number or with an array of them. *)
Inductive Value : Type :=
| Scalar (x : fval)
| Array (xs : list fval).

Definition vmap (f : fval -> fval) (v : Value) : Value :=
  match v with
  | Scalar x => Scalar (f x)
  | Array xs => Array (map f xs)
  end.

Definition default_targets : list string := ["Sync"; "TS-1"; "TS-2"].

(** [target in valid_targets] *)
Definition target_in (target : string) (valid_targets : list string) : bool :=
  existsb (String.eqb target) valid_targets.

Definition get_integrated_current (data : Table) (start_date : Date)
  (end_date : option Date) (target : string) (valid_targets : list string)
  (frequency : string) (is_averaged is_summed : bool) : Py (option Value) :=
  if negb (target_in target valid_targets) then
    print "Invalid target" ;;; ret None
  else
    match end_date with
    | None =>
        if negb (date_in start_date data) then
          print "Invalid start_date" ;;; ret None
        else
          (* the integrated current for a given date *)
          values <- get_column
                      (filter (fun r => date r =? start_date) data)
                      (col_mah target) ;;
          x <- item0 values ;;
          ret (Some (Scalar (Fin x)))
    | Some end_date =>
        if negb (target_in target valid_targets) then
          print "Invalid target" ;;; ret None
        else
          used_data <- get_sliced_data data start_date end_date
                         frequency is_averaged ;;
          match used_data with
          | Some used_data =>
              integrated_currents <-
                column_values used_data (col_mah target) ;;
              if is_summed then
                (* the sum over the range of dates *)
                ret (Some (Scalar (np_sum integrated_currents)))
              else
                ret (Some (Array integrated_currents))
          | None => ret None
          end
    end.

(** The result of a comparison: a bool, or an array of them. *)
Inductive Truth : Type :=
| Bool (b : bool)
| Bools (bs : list bool).

(** [is_beam_on]: comparing [None] with a number is a TypeError. *)
Definition is_beam_on (data : Table) (date : Date) (target : string)
  : Py Truth :=
  current <- get_integrated_current data date None target default_targets
               "Daily" false true ;;
  match current with
  | Some (Scalar x) => ret (Bool (fgt0 x))
  | Some (Array xs) => ret (Bools (map fgt0 xs))
  | None =>
      raise (TypeError
        "'>' not supported between instances of 'NoneType' and 'int'")
  end.

Definition proton_charge : Q := 1.6e-19%Q.

(** [get_num_protons]: multiplying [None] by a float is a TypeError. *)
Definition get_num_protons (data : Table) (start_date : Date)
  (end_date : option Date) (target : string) (valid_targets : list string)
  (frequency : string) (is_averaged is_summed per_second : bool)
  : Py Value :=
  integrated_current <- get_integrated_current data start_date end_date
                          target valid_targets frequency is_averaged
                          is_summed ;;
  match integrated_current with
  | Some integrated_current =>
      let num_protons :=
        vmap (fun x => fdiv (fmul x (Fin 1e-3%Q)) (Fin proton_charge))
             integrated_current in
      if per_second then
        ret (vmap (fun x => fdiv x (Fin 86400%Q)) num_protons)
      else
        ret num_protons
  | None =>
      raise (TypeError
        "unsupported operand type(s) for *: 'NoneType' and 'float'")
  end.

Definition default_voltage : Q := 800%Q.
Definition default_voltage_unit_factor : Q := (1e6 * 1.6e-19)%Q.
Definition default_current_unit_factor : Q := (1e-3 / 86400)%Q.

(** [get_average_power]: multiplying a float by [None] is a TypeError. *)
Definition get_average_power (data : Table) (start_date : Date)
  (end_date : option Date) (target : string) (valid_targets : list string)
  (frequency : string) (is_averaged is_summed : bool)
  (voltage voltage_unit_factor current_unit_factor : Q) : Py Value :=
  (* Default: MeV -> J *)
  let voltage := (voltage * voltage_unit_factor)%Q in
  (* Default: mAh -> A *)
  current <- get_integrated_current data start_date end_date
               target valid_targets frequency is_averaged is_summed ;;
  match current with
  | Some current =>
      let integrated_current :=
        vmap (fun x => fmul (Fin current_unit_factor) x) current in
      ret (vmap (fun x => fmul (Fin voltage) x) integrated_current)
  | None =>
      raise (TypeError
        "unsupported operand type(s) for *: 'float' and 'NoneType'")
  end.

(* ================================================================== *)
(** ** Notions used to state the properties *)

(** The sum of the first [i + 1] values of a column. *)
Definition running_sum (xs : list Q) (i : nat) : Q := Qsum (firstn (S i) xs).

(** The tolerance the checker applies to a running sum [x] against the
    recorded cumulative value [y]. *)
Definition within_tolerance (x y : Q) : Prop :=
  (Qabs (x - y) <= 0.1 + 1e-5 * Qabs y)%Q.

(** A cumulative column agrees with the running sums of a daily column. *)
Definition consistent (daily cumulative : list Q) : Prop :=
  forall i y, nth_error cumulative i = Some y ->
              within_tolerance (running_sum daily i) y.

(** Every channel's running sums stay within [tolerance] of the recorded
    cumulative values, at every position of the table. *)
Definition charge_consistent_within (tolerance : Q -> Q) (data : Table)
  : Prop :=
  forall target daily cumulative,
    In target ["Sync"; "TS-1"; "TS-2"] ->
    cell (col_mah target) = Some daily ->
    cell (col_cum target) = Some cumulative ->
    forall i row, nth_error data i = Some row ->
      (Qabs (running_sum (map daily data) i - cumulative row)
       <= tolerance (cumulative row))%Q.

(** A column decreases somewhere: some value is below its predecessor. *)
Definition decreases {A} (lt : A -> A -> Prop) (xs : list A) : Prop :=
  exists i a b,
    nth_error xs i = Some a /\ nth_error xs (S i) = Some b /\ lt b a.

(** A column is strictly increasing. *)
Definition strictly_increasing {A} (lt : A -> A -> Prop) (xs : list A)
  : Prop :=
  forall i j a b, (i < j)%nat ->
    nth_error xs i = Some a -> nth_error xs j = Some b -> lt a b.

(** The assertion error of a failed monotonicity check on a column. *)
Definition not_sorted (column : string) : exn :=
  AssertionError (Some (column ++ " is not sorted")).

(** The position of the first row dated [d]. *)
Fixpoint position (d : Date) (data : Table) : option nat :=
  match data with
  | [] => None
  | r :: data' =>
      if date r =? d then Some O else option_map S (position d data')
  end.

(** Both dates are in the table and the end is not before the start. *)
Definition valid_range (data : Table) (start_date end_date : Date)
  (i j : nat) : Prop :=
  position start_date data = Some i /\
  position end_date data = Some j /\
  (i <= j)%nat.

(** The arithmetic sum of a sequence of values. *)
Definition arithmetic_sum (xs : list fval) : fval :=
  fold_right fadd (Fin 0) xs.

(** The incremental-charge field of a row for a channel name. *)
Definition charge (target : string) : option (Row -> Q) :=
  cell (col_mah target).

(** A bucket whose seven numeric fields all hold [x]. *)
Definition filled (x : fval) (b : Bucket) : Prop :=
  b_julian b = x /\ b_mah_sync b = x /\ b_mah_ts1 b = x /\ b_mah_ts2 b = x /\
  b_cum_sync b = x /\ b_cum_ts1 b = x /\ b_cum_ts2 b = x.

(** A row contributes to a bucket when the bucket is labelled with the
    window of the row's date. *)
Definition contributes (rule : Rule) (row : Row) (b : Bucket) : Prop :=
  period_label rule (period_key rule (date row)) = window_end b.

(** The resampling rule of a frequency name. *)
Definition rule_of (frequency : string) : Rule :=
  if (frequency =? "Weekly")%string then W else M.

(** Sample tables. *)
Definition sample_row (j : Z) (d : Date) (daily cumulative : Q) : Row :=
  mkRow j d daily daily daily cumulative cumulative cumulative.

(** Three days in April 1991 and one in May, all consistent. *)
Definition sample_table : Table :=
  [ sample_row 48362 7775 1.5 1.5;
    sample_row 48363 7776 0 1.5;
    sample_row 48364 7777 2.25 3.75;
    sample_row 48392 7805 1 4.75 ].

(** One day whose running sum is half a milliamp-hour off its cumulative
    value of 100000. *)
Definition loose_table : Table :=
  [ sample_row 48362 7775 100000.5 100000 ].

(** Two rows with distinct, increasing day numbers and the same date. *)
Definition same_date_table : Table :=
  [ sample_row 48362 7775 1 1;
    sample_row 48363 7775 1 2 ].

(** Sync and TS-1 are reset on the second day; TS-2 is not. *)
Definition reset_table : Table :=
  [ mkRow 48362 7775 5 5 5 5 5 5;
    mkRow 48363 7776 (-5) (-5) 0 0 0 5 ].

(* ================================================================== *)
(** ** find_decreasing_value

    [strftime d fmt] stands for [pd.to_datetime(d).strftime(fmt)]; the
    functions that format a date take it as their first argument. *)

Definition decreasing_header : string :=
  "Found decreasing integrated current at:".

(** The line printed for a row whose value is below the previous one. *)
Definition decreasing_line (strftime : Date -> string -> string)
  (column : string) (d : Date) : string :=
  strftime d "%d-%b-%Y" ++ " (" ++ column ++ ")".

(** The loop over [enumerate(data[column].values)], each value paired with
    the date of its row; [prev_value] and [found] are the loop's
    variables. *)
Fixpoint find_decreasing_loop (strftime : Date -> string -> string)
  (column : string) (cells : list (Date * Q)) (prev_value : Q)
  (found : bool) : Py bool :=
  match cells with
  | [] => ret found
  | (d, value) :: cells' =>
      if negb (Qle_bool prev_value value) then
        (if negb found then print decreasing_header else ret tt) ;;;
        print (decreasing_line strftime column d) ;;;
        find_decreasing_loop strftime column cells' value true
      else
        find_decreasing_loop strftime column cells' value found
  end.

Definition find_decreasing_value (strftime : Date -> string -> string)
  (data : Table) (column : string) : Py bool :=
  values <- get_column data column ;;
  find_decreasing_loop strftime column (combine (map date data) values)
    0%Q false.

(* ================================================================== *)
(** ** plot_integrated_current

    The function acts on matplotlib and on the working directory.  Both
    are kept in a [World]: whether the directory "graphs" exists, and the
    calls made so far, in order.  The calls themselves are taken to
    succeed. *)

Inductive Call : Type :=
| rcParams (key : string) (value : Z)   (* plt.rcParams[key] = value *)
| tight_layout
| figure (width height : Z)
| xlabel (label : string)
| ylabel (label : string)
| plot (xs : list Date) (ys : list fval) (fmt : string)
| mkdir (path : string)
| savefig (file_name : string)        (* bbox_inches="tight" *)
| show
| clf.

Record World : Type := mkWorld {
  graphs_isdir : bool;
  calls : list Call
}.

Definition Plt (A : Type) : Type := World -> World * Py A.

Definition plt_ret {A} (v : A) : Plt A := fun w => (w, ret v).

Definition plt_bind {A B} (m : Plt A) (k : A -> Plt B) : Plt B :=
  fun w =>
    match m w with
    | (w1, (out, Ok v)) =>
        match k v w1 with
        | (w2, (out', r)) => (w2, ((out ++ out')%list, r))
        end
    | (w1, (out, Raise e)) => (w1, (out, Raise e))
    end.

Notation "x <~ m ;; k" := (plt_bind m (fun x => k))
  (at level 61, m at next level, right associativity).
Notation "m ~;; k" := (plt_bind m (fun _ => k))
  (at level 61, right associativity).

(** A computation that leaves the world alone. *)
Definition lift {A} (m : Py A) : Plt A := fun w => (w, m).

Definition call (c : Call) : Plt unit :=
  fun w => (mkWorld (graphs_isdir w) (calls w ++ [c])%list, ret tt).

(** [os.path.isdir("graphs")] and [os.mkdir("graphs")] *)
Definition os_path_isdir_graphs : Plt bool :=
  fun w => (w, ret (graphs_isdir w)).

Definition os_mkdir_graphs : Plt unit :=
  fun w => (mkWorld true (calls w ++ [mkdir "graphs"])%list, ret tt).

Definition not_subscriptable : exn :=
  TypeError "'NoneType' object is not subscriptable".

(** [used_data["Date"]]: the dates of table rows; a resampled frame has
    its dates in the index and no such column. *)
Definition date_column (used_data : option DataFrame) : Py (list Date) :=
  match used_data with
  | None => raise not_subscriptable
  | Some (Records rows) => ret (map date rows)
  | Some (Resampled _) => raise (KeyError "Date")
  end.

(** [used_data[column].keys().values]: the index of a resampled frame is
    its window labels.  Table rows come back only for "Daily", where this
    lookup is not made; they are numbered here from the start of the
    slice. *)
Definition column_keys (used_data : option DataFrame) (column : string)
  : Py (list Date) :=
  match used_data with
  | None => raise not_subscriptable
  | Some (Records rows) =>
      _ <- get_column rows column ;;
      ret (map Z.of_nat (seq 0 (List.length rows)))
  | Some (Resampled buckets) =>
      match bucket_cell column with
      | Some _ => ret (map window_end buckets)
      | None => raise (KeyError column)
      end
  end.

(** [used_data[column].values] *)
Definition subscript_values (used_data : option DataFrame) (column : string)
  : Py (list fval) :=
  match used_data with
  | None => raise not_subscriptable
  | Some frame => column_values frame column
  end.

Definition averaged_daily_message : string :=
  "Can't extract average daily data" ++ String "010"%char
  "(minimum frequency for averaging = Weekly)".

Definition default_file_name (target start_date end_date frequency : string)
  (is_averaged : bool) : string :=
  if is_averaged then
    "graphs/" ++ target ++ "_averaged_" ++ start_date ++ "_to_" ++ end_date
      ++ "_" ++ frequency ++ "_Integrated_Currents.png"
  else
    "graphs/" ++ target ++ "_" ++ start_date ++ "_to_" ++ end_date
      ++ "_" ++ frequency ++ "_Integrated_Currents.png".

Definition plot_integrated_current (strftime : Date -> string -> string)
  (data : Table) (start_date end_date : Date) (target : string)
  (valid_targets : list string) (frequency : string)
  (is_averaged is_high_resolution is_shown is_saved : bool)
  (date_format : string) (file_name : option string) : Plt unit :=
  if negb (target_in target valid_targets) then
    lift (print "Invalid target")
  else if is_averaged && (frequency =? "Daily")%string then
    lift (print averaged_daily_message)
  else
    (* the data for the x and y axes *)
    used_data <~ lift (get_sliced_data data start_date end_date
                         frequency is_averaged) ;;
    dates <~ lift (if (frequency =? "Daily")%string
                   then date_column used_data
                   else column_keys used_data (col_mah target)) ;;
    integrated_currents <~
      lift (subscript_values used_data (col_mah target)) ;;
    (if is_high_resolution then
       call (rcParams "savefig.dpi" 300) ~;;
       (if is_shown then call (rcParams "figure.dpi" 300)
        else plt_ret tt)
     else plt_ret tt) ~;;
    call tight_layout ~;;
    call (figure 15 5) ~;;
    let start_date := strftime start_date date_format in
    let end_date := strftime end_date date_format in
    call (xlabel "Date") ~;;
    file_name <~
      (if is_averaged then
         call (ylabel (target ++ " " ++ frequency
                       ++ " Average Integrated Current (Milliamp-hours)")) ~;;
         plt_ret (match file_name with
                  | None => default_file_name target start_date end_date
                              frequency true
                  | Some name => name
                  end)
       else
         call (ylabel (target ++ " " ++ frequency
                       ++ " Integrated Current (Milliamp-hours)")) ~;;
         plt_ret (match file_name with
                  | None => default_file_name target start_date end_date
                              frequency false
                  | Some name => name
                  end)) ;;
    call (plot dates integrated_currents ":o") ~;;
    isdir <~ os_path_isdir_graphs ;;
    (if negb isdir then os_mkdir_graphs else plt_ret tt) ~;;
    (if is_saved then
       call (savefig file_name) ~;;
       lift (print ("Saved " ++ file_name))
     else plt_ret tt) ~;;
    if is_shown then call show else call clf.

(* ================================================================== *)
(** ** Further notions used to state the properties *)

(** Equality of two float values as numbers. *)
Definition feq (a b : fval) : Prop :=
  match a, b with
  | Fin x, Fin y => (x == y)%Q
  | NaN, NaN => True
  | _, _ => False
  end.

(** Equality of two query results as numbers, element by element. *)
Definition veq (u v : Value) : Prop :=
  match u, v with
  | Scalar x, Scalar y => feq x y
  | Array xs, Array ys => Forall2 feq xs ys
  | _, _ => False
  end.


(** The dates of the rows whose value is below the value of the row
    before, the first row being compared with [first_prev]: each value is
    lined up with its predecessor and the decreasing pairs are kept. *)
Definition decreasing_dates (dates : list Date) (values : list Q)
  (first_prev : Q) : list Date :=
  map (fun t => fst (fst t))
      (filter (fun t => negb (Qle_bool (snd t) (snd (fst t))))
              (combine (combine dates values) (first_prev :: values))).

(** Two rows at different positions carry the same day number. *)
Definition repeated_julian (data : Table) : Prop :=
  exists i j r1 r2, (i < j)%nat /\
    nth_error data i = Some r1 /\ nth_error data j = Some r2 /\
    julian r1 = julian r2.

(** Every channel's cumulative column agrees with its running sums. *)
Definition all_consistent (data : Table) : Prop :=
  consistent (map mah_sync data) (map cum_sync data) /\
  consistent (map mah_ts1 data) (map cum_ts1 data) /\
  consistent (map mah_ts2 data) (map cum_ts2 data).

(** The world before anything was drawn. *)
Definition fresh_world (graphs : bool) : World := mkWorld graphs [].

(** A stand-in for [strftime] on sample inputs. *)
Definition sample_strftime (d : Date) (fmt : string) : string :=
  if (d =? 7775) then "16-Apr-1991"
  else if (d =? 7776) then "17-Apr-1991"
  else if (d =? 7777) then "18-Apr-1991"
  else if (d =? 7805) then "16-May-1991"
  else fmt.

(* ================================================================== *)
(** * Properties *)

(** ** The calendar on known dates *)

Example civil_16_Apr_1991 :
  Calendar.civil_from_days 7775 = (1991, 4, 16).
Proof. reflexivity. Qed.

Example civil_29_Feb_2000 :
  Calendar.civil_from_days 11016 = (2000, 2, 29).
Proof. reflexivity. Qed.

Example civil_roundtrip_08_Jun_2025 :
  Calendar.days_from_civil 2025 6 8 = 20247 /\
  Calendar.civil_from_days 20247 = (2025, 6, 8).
Proof. split; reflexivity. Qed.

(** Tuesday 16 April 1991 falls in the week ending Sunday 21 April and in
    the month ending 30 April; Sunday 28 July 1991 ends its own week. *)
Example windows_of_16_Apr_1991 :
  period_label W (period_key W 7775) = 7780 /\
  period_label M (period_key M 7775) = 7789 /\
  period_label W (period_key W 7878) = 7878.
Proof. repeat split. Qed.

Example month_end_of_leap_february :
  period_label M (period_key M 11000) = 11016 /\
  period_label M (period_key M 11017) = 11047.
Proof. split; reflexivity. Qed.

(** ** The monad *)

Lemma bind_ret_l {A B} (v : A) (k : A -> Py B) : bind (ret v) k = k v.
Proof. unfold bind, ret. destruct (k v). reflexivity. Qed.

Lemma bind_raise_l {A B} (e : exn) (k : A -> Py B) :
  bind (raise e) k = raise e.
Proof. reflexivity. Qed.

Lemma bind_assert {B} (cond : bool) (msg : option string) (k : unit -> Py B) :
  bind (assert cond msg) k =
  if cond then k tt else raise (AssertionError msg).
Proof. destruct cond; [apply bind_ret_l | reflexivity]. Qed.

(** ** The integrity checker, case by case *)

Section Integrity.

Variable data : Table.

Let days : list Q := map (fun r => inject_Z (julian r)) data.

Lemma data_integrity_check_cases :
  data_integrity_check data =
  if is_monotonic_increasing days then
    if is_monotonic_increasing (map cum_ts2 data) then
      if all (isclose 0.1 (cumsum (map mah_sync data)) (map cum_sync data))
      then
        if all (isclose 0.1 (cumsum (map mah_ts1 data)) (map cum_ts1 data))
        then
          if all (isclose 0.1 (cumsum (map mah_ts2 data)) (map cum_ts2 data))
          then
            if negb (any (duplicated days)) then ret tt
            else raise (AssertionError (Some "Duplicated dates found"))
          else raise (AssertionError None)
        else raise (AssertionError None)
      else raise (AssertionError None)
    else raise (not_sorted (col_cum "TS-2"))
  else raise (not_sorted col_julian).
Proof.
  unfold data_integrity_check, sorted_checks, get_column.
  cbn [for_ cell col_mah col_cum col_julian String.eqb Ascii.eqb Bool.eqb
       append].
  rewrite !bind_ret_l, !bind_assert.
  fold days.
  repeat match goal with
         | |- context [if ?b then _ else _] =>
             destruct b; [| reflexivity]
         end.
  reflexivity.
Qed.

End Integrity.

(** ** Columns: monotonicity, running sums, duplicates *)

Lemma is_monotonic_increasing_cons x y xs :
  is_monotonic_increasing (x :: y :: xs) =
  Qle_bool x y && is_monotonic_increasing (y :: xs).
Proof. reflexivity. Qed.

Lemma is_monotonic_increasing_spec xs :
  is_monotonic_increasing xs = true <->
  forall i a b, nth_error xs i = Some a -> nth_error xs (S i) = Some b ->
                (a <= b)%Q.
Proof.
  induction xs as [| x [| y xs] IH].
  - split; [intros _ [|i] a b H; discriminate | reflexivity].
  - split; [intros _ [|[|i]] a b H1 H2; discriminate | reflexivity].
  - rewrite is_monotonic_increasing_cons, andb_true_iff, Qle_bool_iff, IH.
    split.
    + intros [Hxy Hrest] [|i] a b H1 H2.
      * cbn in H1, H2. injection H1 as <-. injection H2 as <-. exact Hxy.
      * exact (Hrest i a b H1 H2).
    + intros H. split.
      * exact (H O x y eq_refl eq_refl).
      * intros i a b H1 H2. exact (H (S i) a b H1 H2).
Qed.

Lemma not_monotonic_decreases xs :
  is_monotonic_increasing xs = false <-> decreases Qlt xs.
Proof.
  induction xs as [| x [| y xs] IH].
  - split; [discriminate | intros ([|i] & a & b & H & _); discriminate].
  - split; [discriminate |].
    intros ([|[|i]] & a & b & H1 & H2 & _); discriminate.
  - rewrite is_monotonic_increasing_cons, andb_false_iff, IH.
    split.
    + intros [Hxy | (i & a & b & H1 & H2 & Hlt)].
      * exists O, x, y. repeat split.
        apply Qnot_le_lt. intros Hle.
        apply Qle_bool_iff in Hle. congruence.
      * exists (S i), a, b. auto.
    + intros ([|i] & a & b & H1 & H2 & Hlt).
      * cbn in H1, H2. injection H1 as <-. injection H2 as <-.
        left. destruct (Qle_bool x y) eqn:E; [| reflexivity].
        apply Qle_bool_iff in E. exfalso. exact (Qlt_not_le _ _ Hlt E).
      * right. exists i, a, b. auto.
Qed.

Lemma decreases_inject_Z (js : list Z) :
  decreases Qlt (map inject_Z js) <-> decreases Z.lt js.
Proof.
  unfold decreases. split.
  - intros (i & a & b & H1 & H2 & Hlt).
    rewrite nth_error_map in H1, H2.
    destruct (nth_error js i) as [ja|] eqn:E1; [| discriminate].
    destruct (nth_error js (S i)) as [jb|] eqn:E2; [| discriminate].
    cbn in H1, H2. injection H1 as <-. injection H2 as <-.
    exists i, ja, jb. repeat split; auto.
    rewrite Zlt_Qlt. exact Hlt.
  - intros (i & a & b & H1 & H2 & Hlt).
    exists i, (inject_Z a), (inject_Z b).
    rewrite !nth_error_map, H1, H2. repeat split.
    rewrite <- Zlt_Qlt. exact Hlt.
Qed.

Lemma monotonic_le_far xs :
  is_monotonic_increasing xs = true ->
  forall i j a b, (i <= j)%nat ->
    nth_error xs i = Some a -> nth_error xs j = Some b -> (a <= b)%Q.
Proof.
  intros Hmono i j a b Hij. revert b.
  induction Hij as [| j Hij IH]; intros b Ha Hb.
  - rewrite Ha in Hb. injection Hb as <-. apply Qle_refl.
  - destruct (nth_error xs j) as [c|] eqn:Hc.
    + apply Qle_trans with c; [apply IH; auto |].
      apply (proj1 (is_monotonic_increasing_spec xs) Hmono j c b Hc Hb).
    + apply nth_error_None in Hc.
      assert (nth_error xs (S j) = None) by (apply nth_error_None; lia).
      congruence.
Qed.

Lemma cumsum_from_nth xs : forall acc i,
  (i < List.length xs)%nat ->
  nth_error (cumsum_from acc xs) i =
  Some (fold_left Qplus (firstn (S i) xs) acc).
Proof.
  induction xs as [| x xs IH]; intros acc i Hi; cbn in Hi; [lia |].
  destruct i as [| i].
  - reflexivity.
  - cbn [cumsum_from nth_error]. rewrite IH by lia. reflexivity.
Qed.

Lemma cumsum_nth xs i :
  (i < List.length xs)%nat ->
  nth_error (cumsum xs) i = Some (running_sum xs i).
Proof. apply cumsum_from_nth. Qed.

Lemma cumsum_from_length xs : forall acc,
  List.length (cumsum_from acc xs) = List.length xs.
Proof. induction xs; intros; cbn; auto. Qed.

Lemma isclose1_spec x y :
  isclose1 0.1 x y = true <-> within_tolerance x y.
Proof. unfold isclose1, within_tolerance, default_rtol. apply Qle_bool_iff. Qed.

Lemma all_isclose_spec atol : forall a b,
  all (isclose atol a b) = true <->
  forall i x y, nth_error a i = Some x -> nth_error b i = Some y ->
                isclose1 atol x y = true.
Proof.
  induction a as [| x a IH]; intros b.
  - split; [intros _ [|i] ? ? H; discriminate | reflexivity].
  - destruct b as [| y b].
    + split; [intros _ [|i] ? ? _ H; discriminate | reflexivity].
    + cbn [isclose all forallb]. fold (all (isclose atol a b)).
      rewrite andb_true_iff, IH. split.
      * intros [H0 Hrest] [|i] x' y' H1 H2.
        -- cbn in H1, H2. injection H1 as <-. injection H2 as <-. exact H0.
        -- exact (Hrest i x' y' H1 H2).
      * intros H. split.
        -- exact (H O x y eq_refl eq_refl).
        -- intros i x' y' H1 H2. exact (H (S i) x' y' H1 H2).
Qed.

Lemma all_isclose_consistent daily cumulative :
  List.length daily = List.length cumulative ->
  all (isclose 0.1 (cumsum daily) cumulative) = true <->
  consistent daily cumulative.
Proof.
  intros Hlen. rewrite all_isclose_spec. unfold consistent. split.
  - intros H i y Hy.
    assert (Hi : (i < List.length daily)%nat).
    { rewrite Hlen. apply nth_error_Some. congruence. }
    apply isclose1_spec. apply (H i _ _ (cumsum_nth daily i Hi) Hy).
  - intros H i x y Hx Hy.
    assert (Hi : (i < List.length daily)%nat).
    { rewrite Hlen. apply nth_error_Some. congruence. }
    rewrite (cumsum_nth daily i Hi) in Hx. injection Hx as <-.
    apply isclose1_spec. exact (H i y Hy).
Qed.

Lemma duplicated_from_seen xs : forall seen,
  any (duplicated_from seen xs) = false ->
  forall i a s, nth_error xs i = Some a -> In s seen -> ~ (a == s)%Q.
Proof.
  induction xs as [| x xs IH]; intros seen H i a s Ha Hs Heq.
  - destruct i; discriminate.
  - cbn [duplicated_from any existsb] in H.
    fold (any (duplicated_from (x :: seen) xs)) in H.
    apply orb_false_iff in H. destruct H as [Hx Hrest].
    destruct i as [| i].
    + cbn in Ha. injection Ha as <-.
      assert (existsb (Qeq_bool x) seen = true); [| congruence].
      apply existsb_exists. exists s. split; auto.
      apply Qeq_bool_iff. exact Heq.
    + exact (IH (x :: seen) Hrest i a s Ha (or_intror Hs) Heq).
Qed.

Lemma duplicated_distinct xs : forall seen,
  any (duplicated_from seen xs) = false ->
  forall i j a b, (i < j)%nat ->
    nth_error xs i = Some a -> nth_error xs j = Some b -> ~ (a == b)%Q.
Proof.
  induction xs as [| x xs IH]; intros seen H i j a b Hij Ha Hb.
  - destruct i; discriminate.
  - cbn [duplicated_from any existsb] in H.
    fold (any (duplicated_from (x :: seen) xs)) in H.
    apply orb_false_iff in H. destruct H as [_ Hrest].
    destruct j as [| j]; [lia |].
    destruct i as [| i].
    + cbn in Ha. injection Ha as <-. intros Heq.
      apply (duplicated_from_seen xs (x :: seen) Hrest j b x Hb
               (or_introl eq_refl)).
      symmetry. exact Heq.
    + apply (IH (x :: seen) Hrest i j a b); auto. lia.
Qed.

(** ** What a table that passes the check satisfies *)

Lemma integrity_ok_iff data :
  returns (data_integrity_check data) tt <->
  is_monotonic_increasing (map (fun r => inject_Z (julian r)) data) = true /\
  is_monotonic_increasing (map cum_ts2 data) = true /\
  all (isclose 0.1 (cumsum (map mah_sync data)) (map cum_sync data)) = true /\
  all (isclose 0.1 (cumsum (map mah_ts1 data)) (map cum_ts1 data)) = true /\
  all (isclose 0.1 (cumsum (map mah_ts2 data)) (map cum_ts2 data)) = true /\
  any (duplicated (map (fun r => inject_Z (julian r)) data)) = false.
Proof.
  unfold returns. rewrite data_integrity_check_cases.
  repeat match goal with
         | |- context [if negb ?b then _ else _] => destruct b; cbn [negb]
         | |- context [if ?b then _ else _] => destruct b
         end;
    (split; [try discriminate; intros _; repeat split
            | intros H; decompose [and] H; try discriminate; reflexivity]).
Qed.

Lemma integrity_ok_printed data :
  returns (data_integrity_check data) tt ->
  data_integrity_check data = ([], Ok tt).
Proof.
  unfold returns. rewrite data_integrity_check_cases.
  repeat match goal with
         | |- context [if ?b then _ else _] => destruct b
         end;
    try discriminate; reflexivity.
Qed.

Lemma integrity_consistent data :
  returns (data_integrity_check data) tt ->
  consistent (map mah_sync data) (map cum_sync data) /\
  consistent (map mah_ts1 data) (map cum_ts1 data) /\
  consistent (map mah_ts2 data) (map cum_ts2 data).
Proof.
  intros H. apply integrity_ok_iff in H.
  destruct H as (_ & _ & Hs & H1 & H2 & _).
  repeat split; apply all_isclose_consistent;
    auto; rewrite !length_map; reflexivity.
Qed.

(** The day numbers of a table that passes are strictly increasing. *)
Lemma integrity_julian_strict data :
  returns (data_integrity_check data) tt ->
  strictly_increasing Z.lt (map julian data).
Proof.
  intros H. apply integrity_ok_iff in H.
  destruct H as (Hmono & _ & _ & _ & _ & Hdup).
  intros i j a b Hij Ha Hb.
  assert (Ha' : nth_error (map (fun r => inject_Z (julian r)) data) i
                = Some (inject_Z a)).
  { rewrite nth_error_map in Ha |- *.
    destruct (nth_error data i); [| discriminate].
    cbn in Ha |- *. congruence. }
  assert (Hb' : nth_error (map (fun r => inject_Z (julian r)) data) j
                = Some (inject_Z b)).
  { rewrite nth_error_map in Hb |- *.
    destruct (nth_error data j); [| discriminate].
    cbn in Hb |- *. congruence. }
  assert (Hle : (inject_Z a <= inject_Z b)%Q).
  { apply (monotonic_le_far _ Hmono i j); auto. lia. }
  assert (Hne : ~ (inject_Z a == inject_Z b)%Q).
  { apply (duplicated_distinct _ [] Hdup i j); auto. }
  rewrite <- Zle_Qle in Hle.
  assert (a <> b) by (intros ->; apply Hne; reflexivity).
  lia.
Qed.

(* ------------------------------------------------------------------ *)
(** ** C1: cumulative consistency of a table that passes *)

(** C1, as stated, fails: [loose_table] passes the check although the
    running sum of each channel, 100000.5, is 0.5 away from the recorded
    cumulative value 100000.  [isclose] is called with [atol=0.1] only, so
    its relative tolerance of 1e-05 of the cumulative value is added. *)
Lemma C1_absolute_tolerance_counterexample :
  ~ (forall data, returns (data_integrity_check data) tt ->
                  charge_consistent_within (fun _ => 0.1%Q) data).
Proof.
  intros H.
  specialize (H loose_table eq_refl "TS-1" mah_ts1 cum_ts1).
  specialize (H (or_intror (or_introl eq_refl)) eq_refl eq_refl).
  specialize (H O _ eq_refl).
  vm_compute in H. apply H. reflexivity.
Qed.

(** C1, amended: for every table on which [data_integrity_check] returns
    without raising, the left-to-right running sum of the incremental
    charge column is within [0.1 + 1e-05 * |cumulative|] of the cumulative
    charge column, at every position, for each of Sync, TS-1 and TS-2. *)
Theorem C1_running_sum_within_isclose_tolerance data :
  returns (data_integrity_check data) tt ->
  charge_consistent_within (fun y => 0.1 + 1e-5 * Qabs y)%Q data.
Proof.
  intros Hok target daily cumulative Hin Hd Hc i row Hrow.
  destruct (integrity_consistent data Hok) as (Hs & H1 & H2).
  assert (Hnth : forall f : Row -> Q,
             nth_error (map f data) i = Some (f row)).
  { intros f. rewrite nth_error_map, Hrow. reflexivity. }
  destruct Hin as [<- | [<- | [<- | []]]];
    cbn in Hd, Hc; injection Hd as <-; injection Hc as <-.
  - exact (Hs i _ (Hnth cum_sync)).
  - exact (H1 i _ (Hnth cum_ts1)).
  - exact (H2 i _ (Hnth cum_ts2)).
Qed.

Lemma C1_running_sum_within_isclose_tolerance_witness :
  returns (data_integrity_check sample_table) tt /\
  charge_consistent_within (fun y => 0.1 + 1e-5 * Qabs y)%Q sample_table.
Proof.
  split; [reflexivity |].
  apply (C1_running_sum_within_isclose_tolerance sample_table).
  reflexivity.
Defined.

(* ------------------------------------------------------------------ *)
(** ** C5: which columns the monotonicity check covers *)

Lemma length_append_string (s t : string) :
  String.length (s ++ t) = (String.length s + String.length t)%nat.
Proof. induction s as [| c s IH]; cbn; [reflexivity | now rewrite IH]. Qed.

(** No monotonicity message is the duplicate-key message. *)
Lemma not_sorted_not_duplicated column :
  not_sorted column <> AssertionError (Some "Duplicated dates found").
Proof.
  unfold not_sorted. intros H. injection H as H.
  assert (Hlen : String.length column = 8%nat).
  { apply (f_equal String.length) in H.
    rewrite length_append_string in H. cbn in H. lia. }
  do 9 (destruct column as [| ? column]; try discriminate Hlen).
  cbn in H. discriminate H.
Qed.

Lemma julian_column_decreases data :
  is_monotonic_increasing (map (fun r => inject_Z (julian r)) data) = false
  <-> decreases Z.lt (map julian data).
Proof.
  rewrite not_monotonic_decreases, <- decreases_inject_Z, map_map.
  reflexivity.
Qed.

(** The three ways the two monotonicity assertions can go. *)
Lemma monotonicity_assertions data :
  let sortedJ :=
    is_monotonic_increasing (map (fun r => inject_Z (julian r)) data) in
  let sortedT := is_monotonic_increasing (map cum_ts2 data) in
  (sortedJ = false ->
   data_integrity_check data = raise (not_sorted col_julian)) /\
  (sortedJ = true -> sortedT = false ->
   data_integrity_check data = raise (not_sorted (col_cum "TS-2"))) /\
  (sortedJ = true -> sortedT = true ->
   forall column,
     ~ raises (data_integrity_check data) (not_sorted column)).
Proof.
  cbv zeta. rewrite data_integrity_check_cases.
  repeat split.
  - intros ->. reflexivity.
  - intros -> ->. reflexivity.
  - intros -> -> column. unfold raises.
    repeat match goal with
           | |- context [if ?b then _ else _] => destruct b
           end; cbn; try discriminate.
    intros H. apply (not_sorted_not_duplicated column). congruence.
Qed.

(** C5: [data_integrity_check] raises the monotonicity violation of the
    day-number column exactly when that column decreases somewhere, and the
    one of the TS-2 cumulative column exactly when the day numbers do not
    decrease and that column does; so some monotonicity violation is raised
    if and only if one of the two columns decreases.  No monotonicity
    violation is ever raised for the Sync or TS-1 cumulative column, a
    table where both decrease can pass, and a table that passes still has
    its Sync and TS-1 cumulative columns consistent with the running
    sums. *)
Theorem C5_monotonicity_checked_columns :
  (forall data,
     (raises (data_integrity_check data) (not_sorted col_julian) <->
      decreases Z.lt (map julian data)) /\
     (raises (data_integrity_check data) (not_sorted (col_cum "TS-2")) <->
      ~ decreases Z.lt (map julian data) /\
      decreases Qlt (map cum_ts2 data)) /\
     ((exists column,
         raises (data_integrity_check data) (not_sorted column)) <->
      decreases Z.lt (map julian data) \/
      decreases Qlt (map cum_ts2 data)) /\
     ~ raises (data_integrity_check data) (not_sorted (col_cum "Sync")) /\
     ~ raises (data_integrity_check data) (not_sorted (col_cum "TS-1")) /\
     (returns (data_integrity_check data) tt ->
      consistent (map mah_sync data) (map cum_sync data) /\
      consistent (map mah_ts1 data) (map cum_ts1 data)))
  /\
  (exists data,
     decreases Qlt (map cum_sync data) /\
     decreases Qlt (map cum_ts1 data) /\
     returns (data_integrity_check data) tt).
Proof.
  split.
  - intros data.
    pose proof (julian_column_decreases data) as HJ.
    pose proof (not_monotonic_decreases (map cum_ts2 data)) as HT.
    destruct (monotonicity_assertions data) as (Hj & Ht & Hnone).
    destruct (is_monotonic_increasing
                (map (fun r => inject_Z (julian r)) data)) eqn:EJ.
    + assert (HnJ : ~ decreases Z.lt (map julian data)).
      { intros Hd. apply HJ in Hd. discriminate. }
      destruct (is_monotonic_increasing (map cum_ts2 data)) eqn:ET.
      * assert (HnT : ~ decreases Qlt (map cum_ts2 data)).
        { intros Hd. apply HT in Hd. discriminate. }
        specialize (Hnone eq_refl eq_refl).
        split; [split; [intros H; elim (Hnone _ H) | tauto] |].
        split; [split; [intros H; elim (Hnone _ H) | tauto] |].
        split; [split; [intros [c H]; elim (Hnone _ H) | tauto] |].
        split; [apply Hnone |]. split; [apply Hnone |].
        intros H. apply integrity_consistent in H. tauto.
      * assert (HdT : decreases Qlt (map cum_ts2 data))
          by (apply HT; reflexivity).
        unfold raises, returns. rewrite (Ht eq_refl eq_refl). cbn.
        split; [split; [discriminate | tauto] |].
        split; [split; [tauto | reflexivity] |].
        split; [split; [tauto | intros _; exists (col_cum "TS-2");
                                reflexivity] |].
        split; [discriminate |]. split; discriminate.
    + assert (HdJ : decreases Z.lt (map julian data))
        by (apply HJ; reflexivity).
      unfold raises, returns. rewrite (Hj eq_refl). cbn.
      split; [split; [tauto | reflexivity] |].
      split; [split; [discriminate | tauto] |].
      split; [split; [tauto | intros _; exists col_julian; reflexivity] |].
      split; [discriminate |]. split; discriminate.
  - exists reset_table. repeat split.
    + exists O, 5%Q, 0%Q. repeat split.
    + exists O, 5%Q, 0%Q. repeat split.
Qed.

Lemma C5_monotonicity_checked_columns_witness :
  raises (data_integrity_check
            [sample_row 48363 7775 1 1; sample_row 48362 7776 0 1])
         (not_sorted col_julian).
Proof.
  apply (proj1 C5_monotonicity_checked_columns).
  exists O, 48363, 48362. repeat split.
Defined.

(* ------------------------------------------------------------------ *)
(** ** C6: what the check establishes about day numbers and dates *)

(** C6 at [same_date_table]: the check returns without raising although
    both rows carry the same date.  The duplicate test announced for the
    Date column reads the day-number column. *)
Theorem C6_same_date_table_passes :
  data_integrity_check same_date_table = ([], Ok tt) /\
  ~ NoDup (map date same_date_table) /\
  ~ strictly_increasing Z.lt (map date same_date_table).
Proof.
  split; [reflexivity |]. split.
  - intros H. inversion H as [| x l Hnotin _]; subst.
    apply Hnotin. left. reflexivity.
  - intros H. specialize (H O 1%nat 7775 7775).
    cbn in H. specialize (H ltac:(lia) eq_refl eq_refl). lia.
Qed.

(* ------------------------------------------------------------------ *)
(** ** Looking a date up *)

Local Open Scope list_scope.

Lemma date_in_position d data :
  date_in d data = true <-> exists i, position d data = Some i.
Proof.
  induction data as [| r data IH]; cbn.
  - split; [discriminate | intros [i H]; discriminate].
  - destruct (date r =? d).
    + split; [intros _; exists O; reflexivity | reflexivity].
    + cbn. rewrite IH. split; intros [i H].
      * exists (S i). rewrite H. reflexivity.
      * destruct (position d data) as [k|]; [exists k; auto | discriminate].
Qed.

Lemma date_in_absent d data :
  date_in d data = false <-> position d data = None.
Proof.
  pose proof (date_in_position d data) as H.
  destruct (date_in d data), (position d data) as [i|];
    split; intros E; try reflexivity; try discriminate.
  - destruct (proj1 H eq_refl) as [k Hk]. discriminate.
  - assert (false = true) by (apply H; exists i; reflexivity). discriminate.
Qed.

Lemma index_where_position d data : forall i p,
  position d data = Some i ->
  exists rest, index_where d data p = (p + i)%nat :: rest.
Proof.
  induction data as [| r data IH]; intros i p H; cbn in H |- *.
  - discriminate.
  - destruct (date r =? d).
    + injection H as <-. rewrite Nat.add_0_r. eauto.
    + destruct (position d data) as [k|] eqn:E; [| discriminate].
      cbn in H. injection H as <-.
      destruct (IH k (S p) eq_refl) as [rest Hrest].
      exists rest. rewrite Hrest. f_equal. lia.
Qed.

(** [position] finds the first row with the date. *)
Lemma position_spec d data : forall i,
  position d data = Some i ->
  exists before r after,
    data = before ++ r :: after /\ List.length before = i /\ date r = d /\
    forall r', In r' before -> date r' <> d.
Proof.
  induction data as [| r data IH]; intros i H; cbn in H.
  - discriminate.
  - destruct (date r =? d) eqn:E.
    + injection H as <-. exists [], r, data.
      repeat split; [apply Z.eqb_eq; exact E | intros r' []].
    + destruct (position d data) as [k|] eqn:Ek; [| discriminate].
      cbn in H. injection H as <-.
      destruct (IH k eq_refl) as (before & r0 & after & -> & Hlen & Hd & Hb).
      exists (r :: before), r0, after. repeat split; cbn; auto.
      intros r' [<- | Hin]; [apply Z.eqb_neq; exact E | auto].
Qed.

Lemma position_filter d data i :
  position d data = Some i ->
  exists r rest,
    nth_error data i = Some r /\ date r = d /\
    filter (fun r => date r =? d) data = r :: rest.
Proof.
  intros H.
  destruct (position_spec d data i H) as (before & r & after & -> & Hlen & Hd & Hb).
  exists r, (filter (fun r => date r =? d) after). repeat split; auto.
  - rewrite nth_error_app2 by lia. rewrite Hlen, Nat.sub_diag. reflexivity.
  - rewrite filter_app. cbn. rewrite (proj2 (Z.eqb_eq _ _) Hd).
    replace (filter (fun r => date r =? d) before) with (@nil Row);
      [reflexivity |].
    symmetry. clear - Hb. induction before as [| b before IH]; cbn; auto.
    rewrite (proj2 (Z.eqb_neq _ _) (Hb b (or_introl eq_refl))).
    apply IH. intros r' Hin. apply Hb. right. exact Hin.
Qed.

(* ------------------------------------------------------------------ *)
(** ** get_sliced_data, case by case *)

Lemma get_sliced_data_bad_start data s e frequency is_averaged :
  position s data = None ->
  get_sliced_data data s e frequency is_averaged =
  (["Invalid start_date"], Ok None).
Proof.
  intros H. apply date_in_absent in H.
  unfold get_sliced_data. rewrite H. reflexivity.
Qed.

Lemma get_sliced_data_bad_end data s e frequency is_averaged :
  position s data <> None -> position e data = None ->
  get_sliced_data data s e frequency is_averaged =
  (["Invalid end_date"], Ok None).
Proof.
  intros Hs He. apply date_in_absent in He.
  assert (Hs' : date_in s data = true).
  { destruct (date_in s data) eqn:E; [reflexivity |].
    apply date_in_absent in E. contradiction. }
  unfold get_sliced_data. rewrite Hs', He. reflexivity.
Qed.

Lemma get_sliced_data_found data s e frequency is_averaged i j :
  position s data = Some i -> position e data = Some j ->
  get_sliced_data data s e frequency is_averaged =
  if (j <? i)%nat then
    (["end_date can not be before start_date"], Ok None)
  else
    let slice := iloc data i (j + 1) in
    if (frequency =? "Daily")%string then
      ([], Ok (Some (Records slice)))
    else if (frequency =? "Weekly")%string then
      if is_averaged then
        ([], Ok (Some (Resampled (resample_mean (resample W slice)))))
      else
        ([], Ok (Some (Resampled (resample_sum (resample W slice)))))
    else if (frequency =? "Monthly")%string then
      if is_averaged then
        ([], Ok (Some (Resampled (resample_mean (resample M slice)))))
      else
        ([], Ok (Some (Resampled (resample_sum (resample M slice)))))
    else
      ([invalid_frequency], Ok None).
Proof.
  intros Hs He.
  assert (Hs' : date_in s data = true) by (apply date_in_position; eauto).
  assert (He' : date_in e data = true) by (apply date_in_position; eauto).
  destruct (index_where_position s data i O Hs) as [rs Hrs].
  destruct (index_where_position e data j O He) as [re Hre].
  unfold get_sliced_data. rewrite Hs', He', Hrs, Hre. cbn [negb item0 Nat.add].
  rewrite !bind_ret_l.
  destruct (j <? i)%nat; [reflexivity |].
  cbv zeta.
  destruct (frequency =? "Daily")%string; [reflexivity |].
  destruct (frequency =? "Weekly")%string;
    [destruct is_averaged; reflexivity |].
  destruct (frequency =? "Monthly")%string;
    [destruct is_averaged; reflexivity |].
  reflexivity.
Qed.

(** [get_sliced_data] never raises. *)
Lemma get_sliced_data_never_raises data s e frequency is_averaged :
  exists out frame,
    get_sliced_data data s e frequency is_averaged = (out, Ok frame).
Proof.
  destruct (position s data) as [i|] eqn:Hs.
  2: { rewrite get_sliced_data_bad_start by assumption. eauto. }
  destruct (position e data) as [j|] eqn:He.
  2: { rewrite get_sliced_data_bad_end by congruence. eauto. }
  rewrite (get_sliced_data_found _ _ _ _ _ i j Hs He).
  repeat match goal with
         | |- context [if ?b then _ else _] => destruct b
         end; cbv zeta; eauto.
Qed.

Lemma iloc_split data i j :
  (i <= j)%nat -> (j < List.length data)%nat ->
  exists before after,
    data = before ++ iloc data i (j + 1) ++ after /\
    List.length before = i /\
    List.length (iloc data i (j + 1)) = (j - i + 1)%nat.
Proof.
  intros Hij Hj. unfold iloc.
  exists (firstn i data), (skipn (j + 1 - i) (skipn i data)).
  rewrite firstn_skipn, firstn_skipn. repeat split.
  - rewrite length_firstn. lia.
  - rewrite length_firstn, length_skipn. lia.
Qed.

Lemma iloc_nth data i j k :
  (i + k <= j)%nat ->
  nth_error (iloc data i (j + 1)) k = nth_error data (i + k).
Proof.
  intros H. unfold iloc.
  rewrite nth_error_firstn.
  replace (k <? j + 1 - i)%nat with true
    by (symmetry; apply Nat.ltb_lt; lia).
  apply nth_error_skipn.
Qed.

Lemma position_nth d data i :
  position d data = Some i ->
  (i < List.length data)%nat /\
  exists r, nth_error data i = Some r /\ date r = d.
Proof.
  intros H.
  destruct (position_filter d data i H) as (r & rest & Hr & Hd & _).
  split; [apply nth_error_Some; congruence | eauto].
Qed.

(* ------------------------------------------------------------------ *)
(** ** C3: the daily slice *)

(** C3: for dates [start_date] and [end_date] both in the table, first
    found at positions [i <= j], [get_sliced_data] with frequency "Daily"
    prints nothing and returns the rows of the table from position [i]
    through position [j], in table order and unchanged: the table is
    [before ++ rows ++ after] with [i] rows before, [rows] has
    [j - i + 1] rows, its first row is the one dated [start_date] and its
    last the one dated [end_date]. *)
Theorem C3_daily_slice_is_inclusive_subsequence
  data start_date end_date is_averaged i j :
  valid_range data start_date end_date i j ->
  exists rows before after first last,
    get_sliced_data data start_date end_date "Daily" is_averaged =
      ([], Ok (Some (Records rows))) /\
    data = before ++ rows ++ after /\
    List.length before = i /\
    List.length rows = (j - i + 1)%nat /\
    (forall k, (k <= j - i)%nat ->
               nth_error rows k = nth_error data (i + k)) /\
    nth_error rows O = Some first /\ date first = start_date /\
    nth_error rows (j - i) = Some last /\ date last = end_date.
Proof.
  intros (Hs & He & Hij).
  destruct (position_nth _ _ _ Hs) as (_ & first & Hfirst & Hdf).
  destruct (position_nth _ _ _ He) as (Hj & last & Hlast & Hdl).
  destruct (iloc_split data i j Hij Hj) as (before & after & Hdata & Hb & Hl).
  exists (iloc data i (j + 1)), before, after, first, last.
  rewrite (get_sliced_data_found _ _ _ _ _ i j Hs He).
  replace (j <? i)%nat with false by (symmetry; apply Nat.ltb_ge; lia).
  cbn [String.eqb Ascii.eqb Bool.eqb]. cbv zeta.
  repeat split; auto.
  - intros k Hk. apply iloc_nth. lia.
  - rewrite iloc_nth by lia. rewrite Nat.add_0_r. exact Hfirst.
  - rewrite iloc_nth by lia.
    replace (i + (j - i))%nat with j by lia. exact Hlast.
Qed.

Lemma C3_daily_slice_is_inclusive_subsequence_witness :
  exists rows before after first last,
    get_sliced_data sample_table 7776 7777 "Daily" false =
      ([], Ok (Some (Records rows))) /\
    sample_table = before ++ rows ++ after /\
    List.length before = 1%nat /\
    List.length rows = (2 - 1 + 1)%nat /\
    (forall k, (k <= 2 - 1)%nat ->
               nth_error rows k = nth_error sample_table (1 + k)) /\
    nth_error rows O = Some first /\ date first = 7776 /\
    nth_error rows (2 - 1) = Some last /\ date last = 7777.
Proof.
  apply (C3_daily_slice_is_inclusive_subsequence
           sample_table 7776 7777 false 1 2).
  repeat split. lia.
Defined.

(* ------------------------------------------------------------------ *)
(** ** C10: daily results do not depend on [is_averaged] *)

(** C10: with frequency "Daily", [get_sliced_data] and
    [get_integrated_current] give the same result, printed lines included,
    whichever the value of [is_averaged], for every table, date range (or
    single date), target, list of valid targets and [is_summed] setting. *)
Theorem C10_daily_ignores_is_averaged
  data start_date end_date target valid_targets is_summed (a1 a2 : bool) :
  (forall e,
     get_sliced_data data start_date e "Daily" a1 =
     get_sliced_data data start_date e "Daily" a2) /\
  get_integrated_current data start_date end_date target valid_targets
    "Daily" a1 is_summed =
  get_integrated_current data start_date end_date target valid_targets
    "Daily" a2 is_summed.
Proof.
  assert (Hslice : forall e,
            get_sliced_data data start_date e "Daily" a1 =
            get_sliced_data data start_date e "Daily" a2).
  { intros e. unfold get_sliced_data.
    destruct (date_in start_date data); [| reflexivity].
    destruct (date_in e data); [| reflexivity].
    reflexivity. }
  split; [exact Hslice |].
  unfold get_integrated_current.
  destruct (target_in target valid_targets); [| reflexivity].
  destruct end_date as [e|]; [| reflexivity].
  cbn [negb]. rewrite (Hslice e). reflexivity.
Qed.

(* ------------------------------------------------------------------ *)
(** ** Sums *)

Lemma Qplus_assoc_eq (x y z : Q) : (x + (y + z) = (x + y) + z)%Q.
Proof.
  destruct x as [xn xd], y as [yn yd], z as [zn zd].
  unfold Qplus. cbn [Qnum Qden]. f_equal.
  - rewrite !Pos2Z.inj_mul. ring.
  - apply Pos.mul_assoc.
Qed.

Lemma Qplus_comm_eq (x y : Q) : (x + y = y + x)%Q.
Proof.
  destruct x as [xn xd], y as [yn yd].
  unfold Qplus. cbn [Qnum Qden]. f_equal.
  - ring.
  - apply Pos.mul_comm.
Qed.

Lemma fadd_assoc x y z : fadd x (fadd y z) = fadd (fadd x y) z.
Proof.
  destruct x, y, z; cbn; try reflexivity. now rewrite Qplus_assoc_eq.
Qed.

Lemma fadd_comm x y : fadd x y = fadd y x.
Proof. destruct x, y; cbn; try reflexivity. now rewrite Qplus_comm_eq. Qed.

(** numpy's accumulation gives the arithmetic sum. *)
Lemma np_sum_arithmetic xs : np_sum xs = arithmetic_sum xs.
Proof.
  unfold np_sum, arithmetic_sum.
  apply fold_symmetric; [apply fadd_assoc | intros; apply fadd_comm].
Qed.

(* ------------------------------------------------------------------ *)
(** ** get_integrated_current, case by case *)

Lemma bind_pure_l {A B} out (v : A) (k : A -> Py B) :
  bind (out, Ok v) k = (out ++ fst (k v), snd (k v)).
Proof. unfold bind. destruct (k v). reflexivity. Qed.

Lemma channel_charge target :
  In target default_targets ->
  exists f g,
    cell (col_mah target) = Some f /\ bucket_cell (col_mah target) = Some g /\
    ((target = "Sync"%string /\ f = mah_sync /\ g = b_mah_sync) \/
     (target = "TS-1"%string /\ f = mah_ts1 /\ g = b_mah_ts1) \/
     (target = "TS-2"%string /\ f = mah_ts2 /\ g = b_mah_ts2)).
Proof.
  intros [<- | [<- | [<- | []]]].
  - exists mah_sync, b_mah_sync. repeat split. left. auto.
  - exists mah_ts1, b_mah_ts1. repeat split. right. left. auto.
  - exists mah_ts2, b_mah_ts2. repeat split. right. right. auto.
Qed.

Lemma column_values_channel frame target :
  In target default_targets ->
  exists xs, column_values frame (col_mah target) = ([], Ok xs) /\
             forall f, charge target = Some f ->
             forall rows, frame = Records rows -> xs = map Fin (map f rows).
Proof.
  intros Hin.
  destruct (channel_charge target Hin) as (f & g & Hf & Hg & _).
  destruct frame as [rows | buckets].
  - exists (map Fin (map f rows)). unfold column_values, get_column.
    rewrite Hf. split; [reflexivity |].
    intros f' Hf' rows' E. injection E as <-.
    unfold charge in Hf'. congruence.
  - exists (map g buckets). unfold column_values. rewrite Hg.
    split; [reflexivity | discriminate].
Qed.

Lemma get_integrated_current_bad_target
  data s e target valid_targets frequency is_averaged is_summed :
  target_in target valid_targets = false ->
  get_integrated_current data s e target valid_targets frequency
    is_averaged is_summed = (["Invalid target"], Ok None).
Proof. intros H. unfold get_integrated_current. rewrite H. reflexivity. Qed.

Lemma get_integrated_current_range
  data s e target valid_targets frequency is_averaged is_summed :
  target_in target valid_targets = true ->
  get_integrated_current data s (Some e) target valid_targets frequency
    is_averaged is_summed =
  (used_data <- get_sliced_data data s e frequency is_averaged ;;
   match used_data with
   | Some used_data =>
       integrated_currents <- column_values used_data (col_mah target) ;;
       if is_summed then ret (Some (Scalar (np_sum integrated_currents)))
       else ret (Some (Array integrated_currents))
   | None => ret None
   end).
Proof. intros H. unfold get_integrated_current. rewrite H. reflexivity. Qed.

Lemma get_integrated_current_single_absent
  data d target valid_targets frequency is_averaged is_summed :
  target_in target valid_targets = true ->
  position d data = None ->
  get_integrated_current data d None target valid_targets frequency
    is_averaged is_summed = (["Invalid start_date"], Ok None).
Proof.
  intros Ht Hd. apply date_in_absent in Hd.
  unfold get_integrated_current. rewrite Ht, Hd. reflexivity.
Qed.

Lemma get_integrated_current_single_found
  data d target valid_targets frequency is_averaged is_summed i f :
  target_in target valid_targets = true ->
  charge target = Some f ->
  position d data = Some i ->
  exists row,
    nth_error data i = Some row /\ date row = d /\
    get_integrated_current data d None target valid_targets frequency
      is_averaged is_summed = ([], Ok (Some (Scalar (Fin (f row))))).
Proof.
  intros Ht Hf Hd.
  destruct (position_filter d data i Hd) as (row & rest & Hrow & Hdate & Hfil).
  exists row. repeat split; auto.
  assert (Hin : date_in d data = true) by (apply date_in_position; eauto).
  unfold get_integrated_current, get_column.
  unfold charge in Hf. rewrite Ht, Hin, Hf, Hfil. reflexivity.
Qed.

(** With a target that is not valid, or one that names a channel,
    [get_integrated_current] never raises. *)
Lemma get_integrated_current_never_raises
  data s e target valid_targets frequency is_averaged is_summed :
  (target_in target valid_targets = true -> In target default_targets) ->
  exists out v,
    get_integrated_current data s e target valid_targets frequency
      is_averaged is_summed = (out, Ok v).
Proof.
  intros Hch.
  destruct (target_in target valid_targets) eqn:Ht.
  2: { rewrite get_integrated_current_bad_target by assumption. eauto. }
  specialize (Hch eq_refl).
  destruct (channel_charge target Hch) as (f & g & Hf & _ & _).
  destruct e as [e|].
  - rewrite get_integrated_current_range by assumption.
    destruct (get_sliced_data_never_raises data s e frequency is_averaged)
      as (out & frame & ->).
    rewrite bind_pure_l. destruct frame as [frame|]; [| cbn; eauto].
    destruct (column_values_channel frame target Hch) as (xs & -> & _).
    rewrite bind_pure_l. destruct is_summed; cbn; eauto.
  - destruct (position s data) as [i|] eqn:Hs.
    + destruct (get_integrated_current_single_found data s target
                  valid_targets frequency is_averaged is_summed i f Ht Hf Hs)
        as (row & _ & _ & ->). eauto.
    + rewrite get_integrated_current_single_absent by assumption. eauto.
Qed.

Lemma get_sliced_data_valid data s e frequency is_averaged i j :
  valid_range data s e i j ->
  In frequency ["Daily"; "Weekly"; "Monthly"]%string ->
  exists frame,
    get_sliced_data data s e frequency is_averaged = ([], Ok (Some frame)) /\
    (frequency = "Daily"%string -> frame = Records (iloc data i (j + 1))) /\
    (frequency <> "Daily"%string ->
     frame = Resampled
               ((if is_averaged then resample_mean else resample_sum)
                  (resample (rule_of frequency) (iloc data i (j + 1))))).
Proof.
  intros (Hs & He & Hij) Hfreq.
  rewrite (get_sliced_data_found _ _ _ _ _ i j Hs He).
  replace (j <? i)%nat with false by (symmetry; apply Nat.ltb_ge; lia).
  destruct Hfreq as [<- | [<- | [<- | []]]];
    cbn [String.eqb Ascii.eqb Bool.eqb]; cbv zeta;
    destruct is_averaged; eexists; (split; [reflexivity |]);
    split; intros H; try reflexivity; try discriminate H; congruence.
Qed.

(* ------------------------------------------------------------------ *)
(** ** C7: the summed query is the sum of the element-wise query *)

(** C7: for every valid date range, channel target and frequency (Daily,
    Weekly or Monthly), averaged or not, [get_integrated_current] with
    [is_summed=False] returns an array, and with [is_summed=True] it
    returns the arithmetic sum of that array. *)
Theorem C7_summed_equals_sum_of_elements
  data start_date end_date target valid_targets frequency is_averaged i j :
  valid_range data start_date end_date i j ->
  target_in target valid_targets = true ->
  In target default_targets ->
  In frequency ["Daily"; "Weekly"; "Monthly"]%string ->
  exists xs,
    get_integrated_current data start_date (Some end_date) target
      valid_targets frequency is_averaged false =
      ([], Ok (Some (Array xs))) /\
    get_integrated_current data start_date (Some end_date) target
      valid_targets frequency is_averaged true =
      ([], Ok (Some (Scalar (arithmetic_sum xs)))).
Proof.
  intros Hrange Ht Hch Hfreq.
  rewrite !get_integrated_current_range by assumption.
  destruct (get_sliced_data_valid data start_date end_date frequency
              is_averaged i j Hrange Hfreq) as (frame & -> & _).
  destruct (column_values_channel frame target Hch) as (xs & Hxs & _).
  exists xs. rewrite !bind_pure_l, Hxs, !bind_pure_l. cbn.
  rewrite np_sum_arithmetic. split; reflexivity.
Qed.

Lemma C7_summed_equals_sum_of_elements_witness :
  exists xs,
    get_integrated_current sample_table 7775 (Some 7805) "TS-1"
      default_targets "Weekly" true false = ([], Ok (Some (Array xs))) /\
    get_integrated_current sample_table 7775 (Some 7805) "TS-1"
      default_targets "Weekly" true true =
      ([], Ok (Some (Scalar (arithmetic_sum xs)))).
Proof.
  apply (C7_summed_equals_sum_of_elements sample_table 7775 7805 "TS-1"
           default_targets "Weekly" true 0 3).
  - repeat split. lia.
  - reflexivity.
  - right. left. reflexivity.
  - right. left. reflexivity.
Defined.

(* ------------------------------------------------------------------ *)
(** ** C8: the single-date query and the range of length one *)

(** C8: for a channel target, when date [d] is in the table, first at
    position [i], the query without [end_date] returns the incremental
    charge of the row at [i] as a bare number, and the "Daily" range query
    from [d] to [d] returns the array holding exactly that number; when
    [d] is not in the table both print "Invalid start_date" and return
    [None]. *)
Theorem C8_single_date_agrees_with_unit_range
  data d target valid_targets frequency is_averaged is_summed :
  target_in target valid_targets = true ->
  In target default_targets ->
  (forall i, position d data = Some i ->
     exists row f,
       nth_error data i = Some row /\ date row = d /\
       charge target = Some f /\
       get_integrated_current data d None target valid_targets frequency
         is_averaged is_summed = ([], Ok (Some (Scalar (Fin (f row))))) /\
       get_integrated_current data d (Some d) target valid_targets "Daily"
         is_averaged false = ([], Ok (Some (Array [Fin (f row)])))) /\
  (position d data = None ->
     get_integrated_current data d None target valid_targets frequency
       is_averaged is_summed = (["Invalid start_date"], Ok None) /\
     get_integrated_current data d (Some d) target valid_targets frequency
       is_averaged is_summed = (["Invalid start_date"], Ok None)).
Proof.
  intros Ht Hch. split.
  - intros i Hd.
    destruct (channel_charge target Hch) as (f & g & Hf & _ & _).
    destruct (get_integrated_current_single_found data d target
                valid_targets frequency is_averaged is_summed i f Ht Hf Hd)
      as (row & Hrow & Hdate & Hsingle).
    exists row, f. repeat split; auto.
    rewrite get_integrated_current_range by assumption.
    rewrite (get_sliced_data_found _ _ _ _ _ i i Hd Hd).
    rewrite Nat.ltb_irrefl. cbn [String.eqb Ascii.eqb Bool.eqb]. cbv zeta.
    rewrite bind_pure_l. cbn [fst snd app].
    unfold column_values, get_column. unfold charge in Hf. rewrite Hf.
    assert (Hslice : iloc data i (i + 1) = [row]).
    { destruct (position_nth d data i Hd) as (Hi & _).
      destruct (iloc_split data i i (le_n i) Hi) as (b & a & _ & _ & Hlen).
      pose proof (iloc_nth data i i 0 ltac:(lia)) as H0.
      rewrite Nat.add_0_r, Hrow in H0.
      destruct (iloc data i (i + 1)) as [| r0 [| r1 rest]];
        cbn in Hlen, H0; try lia; try discriminate.
      congruence. }
    rewrite Hslice. reflexivity.
  - intros Hd. split.
    + apply get_integrated_current_single_absent; assumption.
    + rewrite get_integrated_current_range by assumption.
      rewrite get_sliced_data_bad_start by assumption. reflexivity.
Qed.

Lemma C8_single_date_agrees_with_unit_range_witness :
  exists row f,
    nth_error sample_table 2 = Some row /\ date row = 7777 /\
    charge "TS-2" = Some f /\
    get_integrated_current sample_table 7777 None "TS-2" default_targets
      "Daily" false false = ([], Ok (Some (Scalar (Fin (f row))))) /\
    get_integrated_current sample_table 7777 (Some 7777) "TS-2"
      default_targets "Daily" false false =
      ([], Ok (Some (Array [Fin (f row)]))).
Proof.
  apply (proj1 (C8_single_date_agrees_with_unit_range sample_table 7777
                  "TS-2" default_targets "Daily" false false
                  eq_refl (or_intror (or_intror (or_introl eq_refl))))).
  reflexivity.
Defined.

(* ------------------------------------------------------------------ *)
(** ** C9: protons from charge *)

Lemma vmap_vmap f g v : vmap g (vmap f v) = vmap (fun x => g (f x)) v.
Proof. destruct v; cbn; [reflexivity | now rewrite map_map]. Qed.

(** C9: whenever [get_integrated_current] returns a charge value or an
    array of them, [c], [get_num_protons] on the same arguments prints the
    same lines and returns [c * 1e-3 / 1.6e-19], element by element, and
    with [per_second] that quantity divided by 86400. *)
Theorem C9_num_protons_conversion
  data start_date end_date target valid_targets frequency is_averaged
  is_summed out c :
  get_integrated_current data start_date end_date target valid_targets
    frequency is_averaged is_summed = (out, Ok (Some c)) ->
  get_num_protons data start_date end_date target valid_targets
    frequency is_averaged is_summed false =
    (out, Ok (vmap (fun x => fdiv (fmul x (Fin 1e-3)) (Fin 1.6e-19)) c)) /\
  get_num_protons data start_date end_date target valid_targets
    frequency is_averaged is_summed true =
    (out, Ok (vmap (fun x => fdiv (fdiv (fmul x (Fin 1e-3)) (Fin 1.6e-19))
                                  (Fin 86400)) c)).
Proof.
  intros H. unfold get_num_protons. rewrite H, !bind_pure_l.
  cbn [fst snd ret]. rewrite app_nil_r, vmap_vmap. split; reflexivity.
Qed.

Lemma C9_num_protons_conversion_witness :
  get_num_protons sample_table 7775 (Some 7777) "TS-1" default_targets
    "Daily" false false false =
    ([], Ok (Array [Fin (1.5 * 1e-3 / 1.6e-19);
                    Fin (0 * 1e-3 / 1.6e-19);
                    Fin (2.25 * 1e-3 / 1.6e-19)])) /\
  get_num_protons sample_table 7775 (Some 7777) "TS-1" default_targets
    "Daily" false false true =
    ([], Ok (Array [Fin (1.5 * 1e-3 / 1.6e-19 / 86400);
                    Fin (0 * 1e-3 / 1.6e-19 / 86400);
                    Fin (2.25 * 1e-3 / 1.6e-19 / 86400)])).
Proof.
  apply (C9_num_protons_conversion sample_table 7775 (Some 7777) "TS-1"
           default_targets "Daily" false false []
           (Array [Fin 1.5; Fin 0; Fin 2.25])).
  reflexivity.
Defined.

(* ------------------------------------------------------------------ *)
(** ** C2: what the query surface does with invalid input *)

(** [get_sliced_data] either returns a frame and prints nothing, or prints
    a diagnostic and returns [None]. *)
Lemma get_sliced_data_fail_soft data s e frequency is_averaged :
  (exists out, get_sliced_data data s e frequency is_averaged
               = (out, Ok None) /\ out <> [])
  \/ (exists frame, get_sliced_data data s e frequency is_averaged
                    = ([], Ok (Some frame))).
Proof.
  destruct (position s data) as [i|] eqn:Hs.
  2: { left. rewrite get_sliced_data_bad_start by assumption.
       eexists; split; [reflexivity | discriminate]. }
  destruct (position e data) as [j|] eqn:He.
  2: { left. rewrite get_sliced_data_bad_end by congruence.
       eexists; split; [reflexivity | discriminate]. }
  rewrite (get_sliced_data_found _ _ _ _ _ i j Hs He).
  repeat match goal with
         | |- context [if ?b then _ else _] => destruct b
         end; cbv zeta;
    solve [ left; eexists; split; [reflexivity | discriminate]
          | right; eexists; reflexivity ].
Qed.

(** A derived query that gets no result from [get_integrated_current]
    raises a TypeError. *)
Lemma derived_queries_raise_on_no_result
  data start_date end_date target valid_targets frequency is_averaged
  is_summed per_second voltage vfactor cfactor out :
  get_integrated_current data start_date end_date target valid_targets
    frequency is_averaged is_summed = (out, Ok None) ->
  (exists msg,
     get_num_protons data start_date end_date target valid_targets
       frequency is_averaged is_summed per_second
     = (out, Raise (TypeError msg))) /\
  (exists msg,
     get_average_power data start_date end_date target valid_targets
       frequency is_averaged is_summed voltage vfactor cfactor
     = (out, Raise (TypeError msg))).
Proof.
  intros H. unfold get_num_protons, get_average_power.
  rewrite H, !bind_pure_l. cbn [fst snd raise]. rewrite app_nil_r.
  split; eexists; reflexivity.
Qed.

Lemma is_beam_on_raises_on_absent_date data d target :
  position d data = None ->
  exists out msg, is_beam_on data d target = (out, Raise (TypeError msg)).
Proof.
  intros Hd. unfold is_beam_on.
  destruct (target_in target default_targets) eqn:Ht.
  - rewrite get_integrated_current_single_absent by assumption.
    cbn. eauto.
  - rewrite get_integrated_current_bad_target by assumption.
    cbn. eauto.
Qed.

(** C2 at a date that is not in the table (and at an unknown target):
    [get_sliced_data] and [get_integrated_current] print the diagnostic
    and return [None], but [is_beam_on], [get_num_protons] and
    [get_average_power] go on to compute with that [None] and raise a
    TypeError. *)
Theorem C2_derived_queries_raise_on_invalid_input :
  get_sliced_data sample_table 7000 7777 "Daily" false =
    (["Invalid start_date"], Ok None) /\
  get_integrated_current sample_table 7000 None "TS-1" default_targets
    "Daily" false false = (["Invalid start_date"], Ok None) /\
  is_beam_on sample_table 7000 "TS-1" =
    (["Invalid start_date"],
     Raise (TypeError
       "'>' not supported between instances of 'NoneType' and 'int'")) /\
  get_num_protons sample_table 7000 None "TS-1" default_targets
    "Daily" false false false =
    (["Invalid start_date"],
     Raise (TypeError
       "unsupported operand type(s) for *: 'NoneType' and 'float'")) /\
  get_average_power sample_table 7775 (Some 7777) "TS-9" default_targets
    "Daily" false false default_voltage default_voltage_unit_factor
    default_current_unit_factor =
    (["Invalid target"],
     Raise (TypeError
       "unsupported operand type(s) for *: 'float' and 'NoneType'")).
Proof. repeat split. Qed.

(* ------------------------------------------------------------------ *)
(** ** Windows of a resampled frame *)

Lemma week_window d :
  Calendar.week_label (Calendar.week_key d) - 7 < d
  <= Calendar.week_label (Calendar.week_key d).
Proof.
  unfold Calendar.week_label, Calendar.week_key.
  pose proof (Z.div_mod (d + 3) 7 ltac:(lia)).
  pose proof (Z.mod_pos_bound (d + 3) 7 ltac:(lia)).
  lia.
Qed.

Lemma fold_min_spec l : forall a,
  In (fold_left Z.min l a) (a :: l) /\
  forall x, In x (a :: l) -> fold_left Z.min l a <= x.
Proof.
  induction l as [| y l IH]; intros a; cbn [fold_left].
  - split; [left; reflexivity | intros x [<- | []]; lia].
  - destruct (IH (Z.min a y)) as [Hin Hle]. split.
    + destruct Hin as [E | Hin]; [| right; right; exact Hin].
      rewrite <- E. destruct (Z.min_spec a y) as [[_ ->] | [_ ->]];
        [left | right; left]; reflexivity.
    + pose proof (Hle (Z.min a y) (or_introl eq_refl)) as Hm.
      intros x [<- | [<- | Hx]]; [lia | lia |].
      apply Hle. right. exact Hx.
Qed.

Lemma fold_max_spec l : forall a,
  In (fold_left Z.max l a) (a :: l) /\
  forall x, In x (a :: l) -> x <= fold_left Z.max l a.
Proof.
  induction l as [| y l IH]; intros a; cbn [fold_left].
  - split; [left; reflexivity | intros x [<- | []]; lia].
  - destruct (IH (Z.max a y)) as [Hin Hle]. split.
    + destruct Hin as [E | Hin]; [| right; right; exact Hin].
      rewrite <- E. destruct (Z.max_spec a y) as [[_ ->] | [_ ->]];
        [right; left | left]; reflexivity.
    + pose proof (Hle (Z.max a y) (or_introl eq_refl)) as Hm.
      intros x [<- | [<- | Hx]]; [lia | lia |].
      apply Hle. right. exact Hx.
Qed.

Lemma members_nonempty rule rows k :
  In k (map (fun r => period_key rule (date r)) rows) ->
  members rule rows k <> [].
Proof.
  intros Hin. apply in_map_iff in Hin. destruct Hin as (r & Hk & Hr).
  assert (In r (members rule rows k)).
  { apply filter_In. split; [exact Hr | apply Z.eqb_eq; exact Hk]. }
  intros E. rewrite E in H. exact H.
Qed.

Lemma Zrange_length lo hi :
  List.length (Zrange lo hi) = Z.to_nat (hi - lo + 1).
Proof. unfold Zrange. now rewrite length_map, length_seq. Qed.

Lemma Zrange_nth lo hi n :
  (n < Z.to_nat (hi - lo + 1))%nat ->
  nth_error (Zrange lo hi) n = Some (lo + Z.of_nat n).
Proof.
  intros Hn. unfold Zrange.
  rewrite nth_error_map, nth_error_seq.
  replace (n <? Z.to_nat (hi - lo + 1))%nat with true
    by (symmetry; apply Nat.ltb_lt; exact Hn).
  reflexivity.
Qed.

(** The windows of a non-empty frame: the earliest and the latest hold a
    row, and every row falls in a window between them. *)
Lemma resample_span rule rows :
  rows <> [] ->
  exists lo hi,
    first_window rule rows = Some lo /\ last_window rule rows = Some hi /\
    lo <= hi /\
    members rule rows lo <> [] /\ members rule rows hi <> [] /\
    forall row, In row rows -> lo <= period_key rule (date row) <= hi.
Proof.
  destruct rows as [| r rows]; [congruence | intros _].
  set (keys := map (fun r => period_key rule (date r)) rows).
  set (k0 := period_key rule (date r)).
  destruct (fold_min_spec keys k0) as [Hmin_in Hmin].
  destruct (fold_max_spec keys k0) as [Hmax_in Hmax].
  exists (fold_left Z.min keys k0), (fold_left Z.max keys k0).
  repeat split.
  - pose proof (Hmin k0 (or_introl eq_refl)).
    pose proof (Hmax k0 (or_introl eq_refl)). lia.
  - apply members_nonempty. exact Hmin_in.
  - apply members_nonempty. exact Hmax_in.
  - apply Hmin. change (k0 :: keys)
      with (map (fun r => period_key rule (date r)) (r :: rows)).
    apply (in_map (fun r => period_key rule (date r))). exact H.
  - apply Hmax. change (k0 :: keys)
      with (map (fun r => period_key rule (date r)) (r :: rows)).
    apply (in_map (fun r => period_key rule (date r))). exact H.
Qed.

Lemma empty_window_filled (is_averaged : bool) label :
  filled (if is_averaged then NaN else Fin 0%Q)
         (reduce_window (if is_averaged then group_mean else group_sum)
                        label []).
Proof. destruct is_averaged; repeat split. Qed.

(* ------------------------------------------------------------------ *)
(** ** C4: which windows a weekly or monthly query returns *)

(** C4, as stated, fails: the weekly query over [sample_table], whose rows
    are dated 16, 17 and 18 April and 16 May 1991, returns a bucket for the
    week ending Sunday 28 April (day 7787), in which no row falls. *)
Lemma C4_empty_window_counterexample :
  ~ (forall data start_date end_date frequency is_averaged i j buckets,
       valid_range data start_date end_date i j ->
       In frequency ["Weekly"; "Monthly"]%string ->
       get_sliced_data data start_date end_date frequency is_averaged =
         ([], Ok (Some (Resampled buckets))) ->
       forall b, In b buckets ->
         exists row, In row (iloc data i (j + 1)) /\
                     contributes (rule_of frequency) row b).
Proof.
  intros H.
  specialize (H sample_table 7775 7805 "Weekly"%string false 0%nat 3%nat
                (resample_sum (resample W (iloc sample_table 0 4)))).
  assert (Hrange : valid_range sample_table 7775 7805 0 3)
    by (repeat split; lia).
  specialize (H Hrange (or_introl eq_refl) eq_refl
                (reduce_window group_sum 7787 [])).
  destruct H as (row & Hin & Hc).
  - vm_compute. right. left. reflexivity.
  - unfold contributes in Hc.
    destruct Hin as [<- | [<- | [<- | [<- | []]]]];
      vm_compute in Hc; discriminate Hc.
Qed.

(** C4, amended: for every valid date range, [get_sliced_data] with
    frequency "Weekly" or "Monthly" returns one bucket for every calendar
    window from the earliest window that holds a sliced record ([lo])
    through the latest one ([hi]), in ascending order, each reduced from
    the sliced records that fall in it.  The first and the last bucket
    aggregate at least one record and every sliced record falls in a
    returned window; a window in between is returned also when no sliced
    record falls in it, and its numeric fields are then 0 under sum and
    NaN under mean. *)
Theorem C4_buckets_span_first_to_last_window
  data start_date end_date frequency (is_averaged : bool) i j :
  valid_range data start_date end_date i j ->
  In frequency ["Weekly"; "Monthly"]%string ->
  let rule := rule_of frequency in
  let slice := iloc data i (j + 1) in
  let reduction := if is_averaged then group_mean else group_sum in
  exists lo hi buckets,
    get_sliced_data data start_date end_date frequency is_averaged =
      ([], Ok (Some (Resampled buckets))) /\
    lo <= hi /\
    List.length buckets = Z.to_nat (hi - lo + 1) /\
    (forall n, (n < List.length buckets)%nat ->
       nth_error buckets n =
       Some (reduce_window reduction
               (period_label rule (lo + Z.of_nat n))
               (members rule slice (lo + Z.of_nat n)))) /\
    members rule slice lo <> [] /\
    members rule slice hi <> [] /\
    (forall row, In row slice -> lo <= period_key rule (date row) <= hi) /\
    (forall k label, members rule slice k = [] ->
       filled (if is_averaged then NaN else Fin 0%Q)
              (reduce_window reduction label (members rule slice k))).
Proof.
  intros Hrange Hfreq rule slice reduction.
  assert (Hnd : frequency <> "Daily"%string).
  { destruct Hfreq as [<- | [<- | []]]; discriminate. }
  destruct (get_sliced_data_valid data start_date end_date frequency
              is_averaged i j Hrange (or_intror Hfreq))
    as (frame & Hget & _ & Hframe).
  specialize (Hframe Hnd). fold rule slice in Hframe.
  assert (Hslice : slice <> []).
  { destruct Hrange as (_ & He & Hij).
    destruct (position_nth _ _ _ He) as (Hj & _).
    destruct (iloc_split data i j Hij Hj) as (b & a & _ & _ & Hlen).
    fold slice in Hlen. intros E. rewrite E in Hlen. cbn in Hlen. lia. }
  destruct (resample_span rule slice Hslice)
    as (lo & hi & Hlo & Hhi & Hle & Hfirst & Hlast & Hall).
  set (bucket := fun k => reduce_window reduction (period_label rule k)
                                        (members rule slice k)).
  assert (Hbuckets :
            (if is_averaged then resample_mean else resample_sum)
              (resample rule slice) = map bucket (Zrange lo hi)).
  { unfold resample. rewrite Hlo, Hhi.
    unfold bucket, reduction, resample_mean, resample_sum.
    destruct is_averaged; rewrite map_map; reflexivity. }
  exists lo, hi, (map bucket (Zrange lo hi)).
  split; [rewrite Hget, Hframe, Hbuckets; reflexivity |].
  split; [exact Hle |].
  split; [rewrite length_map; apply Zrange_length |].
  split.
  { intros n Hn. rewrite length_map, Zrange_length in Hn.
    rewrite nth_error_map, (Zrange_nth lo hi n Hn). reflexivity. }
  split; [exact Hfirst |]. split; [exact Hlast |]. split; [exact Hall |].
  intros k label ->. apply empty_window_filled.
Qed.

Lemma C4_buckets_span_first_to_last_window_witness :
  exists lo hi buckets,
    get_sliced_data sample_table 7775 7805 "Weekly" true =
      ([], Ok (Some (Resampled buckets))) /\
    lo <= hi /\
    List.length buckets = Z.to_nat (hi - lo + 1) /\
    (forall n, (n < List.length buckets)%nat ->
       nth_error buckets n =
       Some (reduce_window group_mean
               (period_label W (lo + Z.of_nat n))
               (members W (iloc sample_table 0 (3 + 1))
                        (lo + Z.of_nat n)))) /\
    members W (iloc sample_table 0 (3 + 1)) lo <> [] /\
    members W (iloc sample_table 0 (3 + 1)) hi <> [] /\
    (forall row, In row (iloc sample_table 0 (3 + 1)) ->
                 lo <= period_key W (date row) <= hi) /\
    (forall k label, members W (iloc sample_table 0 (3 + 1)) k = [] ->
       filled NaN
              (reduce_window group_mean label
                 (members W (iloc sample_table 0 (3 + 1)) k))).
Proof.
  apply (C4_buckets_span_first_to_last_window sample_table 7775 7805
           "Weekly"%string true 0%nat 3%nat).
  - repeat split. lia.
  - left. reflexivity.
Defined.

(* ================================================================== *)
(** * Further properties of the code *)

(** ** The integrity checker: every outcome *)

Lemma duplicated_found xs : forall seen,
  any (duplicated_from seen xs) = true ->
  (exists i a s, nth_error xs i = Some a /\ In s seen /\ (a == s)%Q) \/
  (exists i j a b, (i < j)%nat /\ nth_error xs i = Some a /\
                   nth_error xs j = Some b /\ (a == b)%Q).
Proof.
  induction xs as [| x xs IH]; intros seen H.
  - discriminate.
  - cbn [duplicated_from any existsb] in H.
    fold (any (duplicated_from (x :: seen) xs)) in H.
    apply orb_true_iff in H. destruct H as [Hx | Hrest].
    + apply existsb_exists in Hx. destruct Hx as (s & Hs & Heq).
      left. exists O, x, s. repeat split; auto.
      apply Qeq_bool_iff. exact Heq.
    + destruct (IH (x :: seen) Hrest)
        as [(i & a & s & Ha & [<- | Hs] & Heq)
           | (i & j & a & b & Hij & Ha & Hb & Heq)].
      * right. exists O, (S i), x, a. repeat split; auto; try lia.
        symmetry. exact Heq.
      * left. exists (S i), a, s. auto.
      * right. exists (S i), (S j), a, b. repeat split; auto. lia.
Qed.

Lemma nth_error_julian data i :
  nth_error (map (fun r => inject_Z (julian r)) data) i =
  option_map (fun r => inject_Z (julian r)) (nth_error data i).
Proof. apply nth_error_map. Qed.

Lemma duplicated_julian_iff data :
  any (duplicated (map (fun r => inject_Z (julian r)) data)) = true <->
  repeated_julian data.
Proof.
  split.
  - intros H. apply duplicated_found in H.
    destruct H as [(i & a & s & _ & [] & _)
                  | (i & j & a & b & Hij & Ha & Hb & Heq)].
    rewrite nth_error_julian in Ha, Hb.
    destruct (nth_error data i) as [r1|] eqn:E1; [| discriminate].
    destruct (nth_error data j) as [r2|] eqn:E2; [| discriminate].
    cbn in Ha, Hb. injection Ha as <-. injection Hb as <-.
    exists i, j, r1, r2. repeat split; auto.
    apply inject_Z_injective. exact Heq.
  - intros (i & j & r1 & r2 & Hij & H1 & H2 & Heq).
    destruct (any (duplicated (map (fun r => inject_Z (julian r)) data)))
      eqn:E; [reflexivity | exfalso].
    apply (duplicated_distinct _ [] E i j
             (inject_Z (julian r1)) (inject_Z (julian r2)) Hij).
    + rewrite nth_error_julian, H1. reflexivity.
    + rewrite nth_error_julian, H2. reflexivity.
    + rewrite Heq. reflexivity.
Qed.

Lemma julian_strict_iff data :
  strictly_increasing Z.lt (map julian data) <->
  ~ decreases Z.lt (map julian data) /\ ~ repeated_julian data.
Proof.
  split.
  - intros H. split.
    + intros (i & a & b & Ha & Hb & Hlt).
      specialize (H i (S i) a b ltac:(lia) Ha Hb). lia.
    + intros (i & j & r1 & r2 & Hij & H1 & H2 & Heq).
      specialize (H i j (julian r1) (julian r2) Hij).
      rewrite !nth_error_map, H1, H2 in H.
      specialize (H eq_refl eq_refl). lia.
  - intros [Hdec Hrep] i j a b Hij Ha Hb.
    assert (Hmono : is_monotonic_increasing
                      (map (fun r => inject_Z (julian r)) data) = true).
    { destruct (is_monotonic_increasing _) eqn:E; [reflexivity |].
      apply julian_column_decreases in E. contradiction. }
    rewrite nth_error_map in Ha, Hb.
    destruct (nth_error data i) as [r1|] eqn:E1; [| discriminate].
    destruct (nth_error data j) as [r2|] eqn:E2; [| discriminate].
    cbn in Ha, Hb. injection Ha as <-. injection Hb as <-.
    assert (Hle : (inject_Z (julian r1) <= inject_Z (julian r2))%Q).
    { apply (monotonic_le_far _ Hmono i j); try lia;
        rewrite nth_error_julian; [rewrite E1 | rewrite E2]; reflexivity. }
    rewrite <- Zle_Qle in Hle.
    assert (julian r1 <> julian r2).
    { intros Heq. apply Hrep. exists i, j, r1, r2. auto. }
    lia.
Qed.

Lemma all_consistent_iff data :
  all_consistent data <->
  all (isclose 0.1 (cumsum (map mah_sync data)) (map cum_sync data)) = true /\
  all (isclose 0.1 (cumsum (map mah_ts1 data)) (map cum_ts1 data)) = true /\
  all (isclose 0.1 (cumsum (map mah_ts2 data)) (map cum_ts2 data)) = true.
Proof.
  unfold all_consistent.
  rewrite !all_isclose_consistent by (rewrite !length_map; reflexivity).
  reflexivity.
Qed.

(** X1: [data_integrity_check] returns without raising exactly for the
    tables whose day numbers are strictly increasing, whose TS-2
    cumulative column never decreases, and whose three cumulative columns
    agree with the running sums of the daily columns within the [isclose]
    tolerance. *)
Theorem integrity_passes_iff data :
  returns (data_integrity_check data) tt <->
  strictly_increasing Z.lt (map julian data) /\
  ~ decreases Qlt (map cum_ts2 data) /\
  all_consistent data.
Proof.
  rewrite integrity_ok_iff, julian_strict_iff, all_consistent_iff.
  rewrite <- julian_column_decreases, <- duplicated_julian_iff.
  rewrite <- not_monotonic_decreases.
  destruct (is_monotonic_increasing
              (map (fun r => inject_Z (julian r)) data));
    destruct (is_monotonic_increasing (map cum_ts2 data));
    destruct (any (duplicated (map (fun r => inject_Z (julian r)) data)));
    intuition congruence.
Qed.

(** X2: the assertion "Duplicated dates found" is raised exactly when
    neither checked column decreases, all three channels are consistent,
    and two rows carry the same day number.  It is the last check: a
    repeated day number in a table that fails an earlier check is not
    reported. *)
Theorem integrity_duplicate_iff data :
  raises (data_integrity_check data)
         (AssertionError (Some "Duplicated dates found")) <->
  ~ decreases Z.lt (map julian data) /\
  ~ decreases Qlt (map cum_ts2 data) /\
  all_consistent data /\
  repeated_julian data.
Proof.
  rewrite all_consistent_iff.
  rewrite <- julian_column_decreases, <- duplicated_julian_iff.
  rewrite <- not_monotonic_decreases.
  unfold raises. rewrite data_integrity_check_cases.
  repeat match goal with
         | |- context [if negb ?b then _ else _] => destruct b; cbn [negb]
         | |- context [if ?b then _ else _] => destruct b
         end; cbn; split; try discriminate;
    try (intros H; decompose [and] H; congruence);
    intuition congruence.
Qed.

(** X3: an assertion without message is raised exactly when neither
    checked column decreases and some channel's cumulative column
    disagrees with the running sums; the failing channel and position are
    not reported. *)
Theorem integrity_mismatch_iff data :
  raises (data_integrity_check data) (AssertionError None) <->
  ~ decreases Z.lt (map julian data) /\
  ~ decreases Qlt (map cum_ts2 data) /\
  ~ all_consistent data.
Proof.
  rewrite all_consistent_iff.
  rewrite <- julian_column_decreases, <- not_monotonic_decreases.
  unfold raises. rewrite data_integrity_check_cases.
  repeat match goal with
         | |- context [if negb ?b then _ else _] => destruct b; cbn [negb]
         | |- context [if ?b then _ else _] => destruct b
         end; cbn; split; try discriminate;
    try (intros H; decompose [and] H; congruence);
    intuition congruence.
Qed.


(* ------------------------------------------------------------------ *)
(** ** get_sliced_data: which diagnostic, and when *)

Lemma unknown_frequency frequency :
  ~ In frequency ["Daily"; "Weekly"; "Monthly"]%string ->
  (frequency =? "Daily")%string = false /\
  (frequency =? "Weekly")%string = false /\
  (frequency =? "Monthly")%string = false.
Proof.
  intros H. repeat split; apply String.eqb_neq; intros ->; apply H; cbn; auto.
Qed.

(** X5: [get_sliced_data] checks its arguments in a fixed order and
    reports the first failure only, by printing one line and returning
    [None]: a start date that is not in the table, then an end date that
    is not, then an end date found before the start date, and only then a
    frequency other than "Daily", "Weekly", "Monthly".  With all four in
    order it prints nothing and returns a frame. *)
Theorem get_sliced_data_diagnostics data s e frequency is_averaged :
  (position s data = None ->
   get_sliced_data data s e frequency is_averaged =
     (["Invalid start_date"], Ok None)) /\
  (position s data <> None -> position e data = None ->
   get_sliced_data data s e frequency is_averaged =
     (["Invalid end_date"], Ok None)) /\
  (forall i j, position s data = Some i -> position e data = Some j ->
     (j < i)%nat ->
     get_sliced_data data s e frequency is_averaged =
       (["end_date can not be before start_date"], Ok None)) /\
  (forall i j, valid_range data s e i j ->
     ~ In frequency ["Daily"; "Weekly"; "Monthly"]%string ->
     get_sliced_data data s e frequency is_averaged =
       ([invalid_frequency], Ok None)) /\
  (forall i j, valid_range data s e i j ->
     In frequency ["Daily"; "Weekly"; "Monthly"]%string ->
     exists frame,
       get_sliced_data data s e frequency is_averaged =
         ([], Ok (Some frame))).
Proof.
  split; [apply get_sliced_data_bad_start |].
  split; [apply get_sliced_data_bad_end |].
  split; [| split].
  - intros i j Hs He Hji.
    rewrite (get_sliced_data_found _ _ _ _ _ i j Hs He).
    replace (j <? i)%nat with true by (symmetry; apply Nat.ltb_lt; lia).
    reflexivity.
  - intros i j (Hs & He & Hij) Hf.
    rewrite (get_sliced_data_found _ _ _ _ _ i j Hs He).
    replace (j <? i)%nat with false by (symmetry; apply Nat.ltb_ge; lia).
    destruct (unknown_frequency frequency Hf) as (-> & -> & ->).
    reflexivity.
  - intros i j Hrange Hf.
    destruct (get_sliced_data_valid data s e frequency is_averaged i j
                Hrange Hf) as (frame & H & _).
    eauto.
Qed.

Lemma get_sliced_data_diagnostics_witness :
  get_sliced_data sample_table 7777 7775 "Yearly" false =
    (["end_date can not be before start_date"], Ok None) /\
  get_sliced_data sample_table 7775 7777 "Yearly" false =
    ([invalid_frequency], Ok None).
Proof.
  pose proof (get_sliced_data_diagnostics sample_table 7777 7775
                "Yearly" false) as (_ & _ & Hinv & _).
  pose proof (get_sliced_data_diagnostics sample_table 7775 7777
                "Yearly" false) as (_ & _ & _ & Hfreq & _).
  split.
  - apply (Hinv 2%nat 0%nat); [reflexivity | reflexivity | lia].
  - apply (Hfreq 0%nat 2%nat).
    + repeat split. lia.
    + cbn. intros [H | [H | [H | []]]]; discriminate H.
Defined.

(** X6: table rows come back exactly for "Daily": whenever
    [get_sliced_data] returns a frame, it holds rows of the table if the
    frequency is "Daily" and buckets otherwise, and the rows are never
    none. *)
Theorem get_sliced_data_frame_kind
  data s e frequency is_averaged out frame :
  get_sliced_data data s e frequency is_averaged = (out, Ok (Some frame)) ->
  (frequency = "Daily"%string ->
   exists rows, frame = Records rows /\ rows <> []) /\
  (frequency <> "Daily"%string ->
   exists buckets, frame = Resampled buckets /\ buckets <> []).
Proof.
  intros H.
  destruct (position s data) as [i|] eqn:Hs.
  2: { rewrite get_sliced_data_bad_start in H by assumption. discriminate. }
  destruct (position e data) as [j|] eqn:He.
  2: { rewrite get_sliced_data_bad_end in H by congruence. discriminate. }
  rewrite (get_sliced_data_found _ _ _ _ _ i j Hs He) in H.
  destruct (j <? i)%nat eqn:Hji; [discriminate |].
  apply Nat.ltb_ge in Hji. cbv zeta in H.
  assert (Hslice : iloc data i (j + 1) <> []).
  { destruct (position_nth _ _ _ He) as (Hj & _).
    destruct (iloc_split data i j Hji Hj) as (b & a & _ & _ & Hlen).
    intros E. rewrite E in Hlen. cbn in Hlen. lia. }
  assert (Hres : forall rule (is_avg : bool),
             (if is_avg then resample_mean else resample_sum)
               (resample rule (iloc data i (j + 1))) <> []).
  { intros rule is_avg.
    destruct (resample_span rule _ Hslice)
      as (lo & hi & Hlo & Hhi & Hle & _).
    unfold resample. rewrite Hlo, Hhi.
    assert (Hlen : List.length (Zrange lo hi) <> 0%nat)
      by (rewrite Zrange_length; lia).
    destruct (Zrange lo hi); [exfalso; apply Hlen; reflexivity |].
    destruct is_avg; discriminate. }
  destruct (frequency =? "Daily")%string eqn:Ed.
  - apply String.eqb_eq in Ed. injection H as _ <-.
    split; [eauto | congruence].
  - apply String.eqb_neq in Ed.
    split; [congruence | intros _].
    destruct (frequency =? "Weekly")%string.
    + destruct is_averaged; injection H as _ <-; eexists; split;
        try reflexivity; [apply (Hres W true) | apply (Hres W false)].
    + destruct (frequency =? "Monthly")%string; [| discriminate].
      destruct is_averaged; injection H as _ <-; eexists; split;
        try reflexivity; [apply (Hres M true) | apply (Hres M false)].
Qed.

Lemma get_sliced_data_frame_kind_witness :
  exists buckets,
    Resampled (resample_sum (resample M (iloc sample_table 0 4))) =
    Resampled buckets /\ buckets <> [].
Proof.
  apply (proj2 (get_sliced_data_frame_kind sample_table 7775 7805
                  "Monthly" false [] _ eq_refl)).
  discriminate.
Defined.

(* ------------------------------------------------------------------ *)
(** ** get_integrated_current: the daily series *)

(** X7: for a valid range found at positions [i <= j] and a channel
    target, the "Daily" query returns an array of [j - i + 1] values, the
    [k]-th being the target's daily charge of the table's row [i + k]. *)
Theorem daily_series_is_the_rows_charge
  data s e target valid_targets is_averaged i j f :
  valid_range data s e i j ->
  target_in target valid_targets = true ->
  charge target = Some f ->
  exists xs,
    get_integrated_current data s (Some e) target valid_targets "Daily"
      is_averaged false = ([], Ok (Some (Array xs))) /\
    List.length xs = (j - i + 1)%nat /\
    forall k, (k <= j - i)%nat ->
      exists row, nth_error data (i + k) = Some row /\
                  nth_error xs k = Some (Fin (f row)).
Proof.
  intros Hrange Ht Hf.
  destruct (get_sliced_data_valid data s e "Daily" is_averaged i j Hrange
              (or_introl eq_refl)) as (frame & Hget & Hframe & _).
  specialize (Hframe eq_refl). subst frame.
  destruct Hrange as (Hs & He & Hij).
  destruct (position_nth _ _ _ He) as (Hj & _).
  destruct (iloc_split data i j Hij Hj) as (b & a & _ & _ & Hlen).
  exists (map Fin (map f (iloc data i (j + 1)))).
  rewrite get_integrated_current_range, Hget by assumption.
  rewrite bind_pure_l. unfold column_values, get_column.
  unfold charge in Hf. rewrite Hf. split; [reflexivity |].
  split; [rewrite !length_map; exact Hlen |].
  intros k Hk.
  assert (Hnth : nth_error (iloc data i (j + 1)) k = nth_error data (i + k))
    by (apply iloc_nth; lia).
  destruct (nth_error data (i + k)) as [row|] eqn:Erow.
  - exists row. split; [reflexivity |].
    rewrite !nth_error_map, Hnth. reflexivity.
  - apply nth_error_None in Erow. lia.
Qed.

Lemma daily_series_is_the_rows_charge_witness :
  exists xs,
    get_integrated_current sample_table 7776 (Some 7805) "Sync"
      default_targets "Daily" false false = ([], Ok (Some (Array xs))) /\
    List.length xs = (3 - 1 + 1)%nat /\
    forall k, (k <= 3 - 1)%nat ->
      exists row, nth_error sample_table (1 + k) = Some row /\
                  nth_error xs k = Some (Fin (mah_sync row)).
Proof.
  apply (daily_series_is_the_rows_charge sample_table 7776 7805 "Sync"
           default_targets false 1 3 mah_sync).
  - repeat split. lia.
  - reflexivity.
  - reflexivity.
Defined.

(* ------------------------------------------------------------------ *)
(** ** Resampling by sum keeps the total *)

Lemma Qplus_0_l_eq (x : Q) : (0 + x = x)%Q.
Proof.
  destruct x as [n d]. unfold Qplus. cbn [Qnum Qden].
  rewrite Z.mul_0_l, Z.add_0_l, Z.mul_1_r, Pos.mul_1_l. reflexivity.
Qed.

Lemma Qsum_fold_right xs : Qsum xs = fold_right Qplus 0%Q xs.
Proof.
  unfold Qsum.
  apply fold_symmetric; [apply Qplus_assoc_eq | intros; apply Qplus_comm_eq].
Qed.

Lemma fold_left_fadd_Fin qs : forall a,
  fold_left fadd (map Fin qs) (Fin a) = Fin (fold_left Qplus qs a).
Proof. induction qs as [| q qs IH]; intros a; cbn; [reflexivity | apply IH]. Qed.

Lemma np_sum_Fin qs : np_sum (map Fin qs) = Fin (Qsum qs).
Proof. apply fold_left_fadd_Fin. Qed.

Section Partition.

Variable key : Row -> Z.
Variable f : Row -> Q.

Let part (rows : list Row) (k : Z) : Q :=
  fold_right Qplus 0%Q (map f (filter (fun r => key r =? k) rows)).

Let total (rows : list Row) (ks : list Z) : Q :=
  fold_right Qplus 0%Q (map (part rows) ks).

Lemma part_cons r rows k :
  part (r :: rows) k =
  if key r =? k then (f r + part rows k)%Q else part rows k.
Proof. unfold part. cbn [filter]. destruct (key r =? k); reflexivity. Qed.

Lemma total_cons rows k ks :
  total rows (k :: ks) = (part rows k + total rows ks)%Q.
Proof. reflexivity. Qed.

Lemma total_nil ks : total [] ks = 0%Q.
Proof.
  induction ks as [| k ks IH]; [reflexivity |].
  rewrite total_cons, IH. reflexivity.
Qed.

Lemma total_cons_outside r rows ks :
  ~ In (key r) ks -> total (r :: rows) ks = total rows ks.
Proof.
  induction ks as [| k ks IH]; intros Hout; [reflexivity |].
  rewrite !total_cons, part_cons.
  replace (key r =? k) with false
    by (symmetry; apply Z.eqb_neq; intros E; apply Hout; left; auto).
  rewrite IH; [reflexivity |]. intros Hin. apply Hout. right. exact Hin.
Qed.

Lemma total_cons_inside r rows ks :
  NoDup ks -> In (key r) ks ->
  total (r :: rows) ks = (f r + total rows ks)%Q.
Proof.
  induction ks as [| k ks IH]; intros Hnd Hin; [destruct Hin |].
  inversion Hnd as [| k' ks' Hk Hnd']; subst.
  rewrite !total_cons, part_cons.
  destruct (Z.eq_dec (key r) k) as [E | E].
  - rewrite total_cons_outside by (rewrite E; exact Hk).
    rewrite (proj2 (Z.eqb_eq _ _) E).
    symmetry. apply Qplus_assoc_eq.
  - destruct Hin as [Hin | Hin]; [congruence |].
    rewrite (IH Hnd' Hin), (proj2 (Z.eqb_neq _ _) E).
    rewrite !Qplus_assoc_eq. f_equal. apply Qplus_comm_eq.
Qed.

(** Summing window by window gives the sum of all rows, when the windows
    are distinct and every row falls in one of them. *)
Lemma total_partition ks : NoDup ks -> forall rows,
  (forall r, In r rows -> In (key r) ks) ->
  total rows ks = fold_right Qplus 0%Q (map f rows).
Proof.
  intros Hnd. induction rows as [| r rows IH]; intros Hall.
  - apply total_nil.
  - rewrite total_cons_inside by (auto; apply Hall; left; reflexivity).
    cbn [map fold_right]. f_equal. apply IH.
    intros r' Hr'. apply Hall. right. exact Hr'.
Qed.

End Partition.

Lemma Zrange_NoDup lo hi : NoDup (Zrange lo hi).
Proof.
  unfold Zrange. generalize (Z.to_nat (hi - lo + 1)) as n.
  generalize 0%nat as start.
  intros start n. revert start.
  induction n as [| n IH]; intros start; cbn [seq map]; constructor.
  - intros Hin. apply in_map_iff in Hin. destruct Hin as (i & Hi & Hseq).
    apply in_seq in Hseq. lia.
  - apply IH.
Qed.

Lemma Zrange_In lo hi k : lo <= k <= hi -> In k (Zrange lo hi).
Proof.
  intros H. unfold Zrange. apply in_map_iff.
  exists (Z.to_nat (k - lo)). split; [lia |].
  apply in_seq. lia.
Qed.

(** A column of a resampled frame holds the reduced values of the same
    column of the rows. *)
Lemma cell_bucket_cell column f :
  cell column = Some f ->
  exists g, bucket_cell column = Some g /\
            forall reduction label ms,
              g (reduce_window reduction label ms) = reduction (map f ms).
Proof.
  unfold cell, bucket_cell. intros Hf.
  repeat match goal with
         | H : context [if ?b then _ else _] |- _ => destruct b
         end;
    try discriminate; injection Hf as <-;
    eexists; split; reflexivity.
Qed.

Lemma resample_sum_column rule slice f g :
  (forall label ms, g (reduce_window group_sum label ms)
                    = group_sum (map f ms)) ->
  slice <> [] ->
  np_sum (map g (resample_sum (resample rule slice)))
  = Fin (Qsum (map f slice)).
Proof.
  intros Hg Hslice.
  destruct (resample_span rule slice Hslice)
    as (lo & hi & Hlo & Hhi & _ & _ & _ & Hall).
  unfold resample, resample_sum. rewrite Hlo, Hhi, !map_map.
  cbn [fst snd].
  rewrite (map_ext _ (fun k => Fin (Qsum (map f (members rule slice k)))))
    by (intros k; apply Hg).
  rewrite <- (map_map (fun k => Qsum (map f (members rule slice k))) Fin).
  rewrite np_sum_Fin. f_equal.
  rewrite !Qsum_fold_right.
  rewrite (map_ext _ (fun k => fold_right Qplus 0%Q
                                 (map f (members rule slice k))))
    by (intros k; apply Qsum_fold_right).
  apply (total_partition (fun r => period_key rule (date r)) f
           (Zrange lo hi) (Zrange_NoDup lo hi) slice).
  intros r Hr. apply Zrange_In. apply Hall. exact Hr.
Qed.

Lemma summed_query_total
  data s e target valid_targets frequency i j f :
  valid_range data s e i j ->
  target_in target valid_targets = true ->
  charge target = Some f ->
  In frequency ["Daily"; "Weekly"; "Monthly"]%string ->
  get_integrated_current data s (Some e) target valid_targets frequency
    false true =
  ([], Ok (Some (Scalar (Fin (Qsum (map f (iloc data i (j + 1)))))))).
Proof.
  intros Hrange Ht Hf Hfreq. unfold charge in Hf.
  destruct (cell_bucket_cell _ f Hf) as (g & Hg & Hpair).
  assert (Hslice : iloc data i (j + 1) <> []).
  { destruct Hrange as (_ & He & Hij).
    destruct (position_nth _ _ _ He) as (Hj & _).
    destruct (iloc_split data i j Hij Hj) as (b & a & _ & _ & Hlen).
    intros E. rewrite E in Hlen. cbn in Hlen. lia. }
  destruct (get_sliced_data_valid data s e frequency false i j Hrange Hfreq)
    as (frame & Hget & Hdaily & Hres).
  rewrite get_integrated_current_range, Hget, bind_pure_l by assumption.
  destruct (String.eqb_spec frequency "Daily") as [Ed | Ed].
  - rewrite (Hdaily Ed). unfold column_values, get_column. rewrite Hf.
    cbn. rewrite np_sum_Fin. reflexivity.
  - rewrite (Hres Ed). unfold column_values. rewrite Hg.
    cbn [bind ret fst snd app].
    rewrite (resample_sum_column _ _ f g); [reflexivity | | exact Hslice].
    intros label ms. apply Hpair.
Qed.



(* ------------------------------------------------------------------ *)
(** ** Weekly buckets are labelled with Sundays *)

Lemma resampled_buckets rule slice (is_averaged : bool) :
  slice <> [] ->
  exists lo hi,
    lo <= hi /\
    (forall row, In row slice -> lo <= period_key rule (date row) <= hi) /\
    (if is_averaged then resample_mean else resample_sum)
      (resample rule slice) =
    map (fun k => reduce_window
                    (if is_averaged then group_mean else group_sum)
                    (period_label rule k) (members rule slice k))
        (Zrange lo hi).
Proof.
  intros Hslice.
  destruct (resample_span rule slice Hslice)
    as (lo & hi & Hlo & Hhi & Hle & _ & _ & Hall).
  exists lo, hi. repeat split; try apply Hall; auto.
  unfold resample. rewrite Hlo, Hhi.
  unfold resample_mean, resample_sum.
  destruct is_averaged; rewrite map_map; reflexivity.
Qed.

(** X9: for every valid date range, the "Weekly" frame is indexed by
    Sundays (day numbers congruent to 3 modulo 7, day 3 being Sunday
    1970-01-04) that follow one another at 7 days, and every sliced row
    has its bucket: the one labelled with the first Sunday not before the
    row's date. *)
Theorem weekly_buckets_are_sundays data s e is_averaged i j :
  valid_range data s e i j ->
  exists buckets,
    get_sliced_data data s e "Weekly" is_averaged =
      ([], Ok (Some (Resampled buckets))) /\
    (forall b, In b buckets -> window_end b mod 7 = 3) /\
    (forall n b b',
       nth_error buckets n = Some b -> nth_error buckets (S n) = Some b' ->
       window_end b' = window_end b + 7) /\
    (forall row, In row (iloc data i (j + 1)) ->
       exists b, In b buckets /\
                 window_end b - 7 < date row <= window_end b).
Proof.
  intros Hrange.
  destruct (get_sliced_data_valid data s e "Weekly" is_averaged i j Hrange
              (or_intror (or_introl eq_refl))) as (frame & Hget & _ & Hres).
  specialize (Hres ltac:(discriminate)).
  change (rule_of "Weekly") with W in Hres.
  assert (Hslice : iloc data i (j + 1) <> []).
  { destruct Hrange as (_ & He & Hij).
    destruct (position_nth _ _ _ He) as (Hj & _).
    destruct (iloc_split data i j Hij Hj) as (b & a & _ & _ & Hlen).
    intros E. rewrite E in Hlen. cbn in Hlen. lia. }
  destruct (resampled_buckets W _ is_averaged Hslice)
    as (lo & hi & Hle & Hall & Hb).
  rewrite Hb in Hres. subst frame.
  eexists. split; [exact Hget |]. split; [| split].
  - intros b Hin. apply in_map_iff in Hin. destruct Hin as (k & <- & _).
    cbn. unfold Calendar.week_label.
    pose proof (Z.div_mod (7 * k + 3) 7 ltac:(lia)).
    pose proof (Z.mod_pos_bound (7 * k + 3) 7 ltac:(lia)). lia.
  - intros n b b' Hn Hn'.
    rewrite nth_error_map in Hn, Hn'.
    assert (Hlen : (S n < Z.to_nat (hi - lo + 1))%nat).
    { rewrite <- Zrange_length. apply nth_error_Some.
      destruct (nth_error (Zrange lo hi) (S n)); [discriminate |].
      discriminate Hn'. }
    rewrite Zrange_nth in Hn, Hn' by lia.
    cbn in Hn, Hn'. injection Hn as <-. injection Hn' as <-.
    cbn. unfold Calendar.week_label. lia.
  - intros row Hrow.
    eexists. split.
    + apply in_map. apply Zrange_In. apply (Hall row Hrow).
    + cbn. apply week_window.
Qed.

Lemma weekly_buckets_are_sundays_witness :
  exists buckets,
    get_sliced_data sample_table 7775 7805 "Weekly" false =
      ([], Ok (Some (Resampled buckets))) /\
    (forall b, In b buckets -> window_end b mod 7 = 3) /\
    (forall n b b',
       nth_error buckets n = Some b -> nth_error buckets (S n) = Some b' ->
       window_end b' = window_end b + 7) /\
    (forall row, In row (iloc sample_table 0 (3 + 1)) ->
       exists b, In b buckets /\
                 window_end b - 7 < date row <= window_end b).
Proof.
  apply (weekly_buckets_are_sundays sample_table 7775 7805 false 0 3).
  repeat split. lia.
Defined.

(* ------------------------------------------------------------------ *)
(** ** get_integrated_current on one date, and on a missing column *)

(** X10: a target that [valid_targets] accepts but that names no column
    of the table makes [get_integrated_current] raise a KeyError for that
    column, on a date that is in the table and on a valid range alike;
    with a date that is not in the table the query still answers [None]. *)
Theorem accepted_target_without_column_raises
  data target valid_targets frequency is_averaged is_summed :
  target_in target valid_targets = true ->
  charge target = None ->
  (forall d i, position d data = Some i ->
     get_integrated_current data d None target valid_targets frequency
       is_averaged is_summed = ([], Raise (KeyError (col_mah target)))) /\
  (forall s e i j, valid_range data s e i j ->
     In frequency ["Daily"; "Weekly"; "Monthly"]%string ->
     get_integrated_current data s (Some e) target valid_targets frequency
       is_averaged is_summed = ([], Raise (KeyError (col_mah target)))) /\
  (forall d e, position d data = None ->
     get_integrated_current data d e target valid_targets frequency
       is_averaged is_summed = (["Invalid start_date"], Ok None)).
Proof.
  intros Ht Hc. unfold charge in Hc.
  assert (Hb : bucket_cell (col_mah target) = None).
  { revert Hc. unfold cell, bucket_cell.
    repeat match goal with
           | |- context [if ?b then _ else _] => destruct b
           end; try discriminate; reflexivity. }
  split; [| split].
  - intros d i Hd.
    assert (Hin : date_in d data = true) by (apply date_in_position; eauto).
    unfold get_integrated_current, get_column. rewrite Ht, Hin, Hc.
    reflexivity.
  - intros s e i j Hrange Hfreq.
    destruct (get_sliced_data_valid data s e frequency is_averaged i j
                Hrange Hfreq) as (frame & Hget & _).
    rewrite get_integrated_current_range, Hget, bind_pure_l by assumption.
    destruct frame; unfold column_values, get_column;
      rewrite ?Hc, ?Hb; reflexivity.
  - intros d [e|] Hd.
    + rewrite get_integrated_current_range by assumption.
      rewrite get_sliced_data_bad_start by assumption. reflexivity.
    + apply get_integrated_current_single_absent; assumption.
Qed.

Lemma accepted_target_without_column_raises_witness :
  get_integrated_current sample_table 7776 None "TS-3"
    ["TS-1"; "TS-3"]%string "Daily" false false =
  ([], Raise (KeyError "Milliamp-hours (TS-3)")).
Proof.
  apply (proj1 (accepted_target_without_column_raises sample_table "TS-3"
                  ["TS-1"; "TS-3"]%string "Daily" false false
                  eq_refl eq_refl) 7776 1%nat).
  reflexivity.
Defined.

(** X11: for a date in the table and a channel target, the query without
    [end_date], whatever its frequency and flags, returns the same scalar
    as the summed, not averaged query over the range from that date to
    itself, at any of the three frequencies. *)
Theorem single_date_equals_summed_unit_range
  data d target valid_targets frequency f1 (a1 s1 : bool) i f :
  position d data = Some i ->
  target_in target valid_targets = true ->
  charge target = Some f ->
  In frequency ["Daily"; "Weekly"; "Monthly"]%string ->
  get_integrated_current data d None target valid_targets f1 a1 s1 =
  get_integrated_current data d (Some d) target valid_targets frequency
    false true.
Proof.
  intros Hd Ht Hf Hfreq.
  rewrite (summed_query_total data d d target valid_targets frequency i i f)
    by (auto; repeat split; auto).
  destruct (get_integrated_current_single_found data d target valid_targets
              f1 a1 s1 i f Ht Hf Hd) as (row & Hrow & _ & ->).
  assert (Hslice : iloc data i (i + 1) = [row]).
  { destruct (position_nth d data i Hd) as (Hi & _).
    destruct (iloc_split data i i (le_n i) Hi) as (b & a & _ & _ & Hlen).
    pose proof (iloc_nth data i i 0 ltac:(lia)) as H0.
    rewrite Nat.add_0_r, Hrow in H0.
    destruct (iloc data i (i + 1)) as [| r0 [| r1 rest]];
      cbn in Hlen, H0; try lia; try discriminate.
    congruence. }
  rewrite Hslice. cbn [map]. unfold Qsum. cbn [fold_left].
  rewrite Qplus_0_l_eq. reflexivity.
Qed.

Lemma single_date_equals_summed_unit_range_witness :
  get_integrated_current sample_table 7777 None "TS-1" default_targets
    "Yearly" true false =
  get_integrated_current sample_table 7777 (Some 7777) "TS-1"
    default_targets "Monthly" false true.
Proof.
  apply (single_date_equals_summed_unit_range sample_table 7777 "TS-1"
           default_targets "Monthly" "Yearly" true false 2 mah_ts1).
  - reflexivity.
  - reflexivity.
  - reflexivity.
  - right. right. left. reflexivity.
Defined.

(* ------------------------------------------------------------------ *)
(** ** is_beam_on *)

(** X12: for a date in the table and one of the three channel names,
    [is_beam_on] prints nothing and returns a single boolean, true exactly
    when the daily charge of the first row with that date is strictly
    positive: a day of zero or negative charge counts as beam off.  With
    any other target name it prints "Invalid target" and raises a
    TypeError, whatever the date. *)
Theorem is_beam_on_iff_positive_charge data d target :
  (forall i f, position d data = Some i ->
     target_in target default_targets = true ->
     charge target = Some f ->
     exists row b,
       nth_error data i = Some row /\
       is_beam_on data d target = ([], Ok (Bool b)) /\
       (b = true <-> (0 < f row)%Q)) /\
  (target_in target default_targets = false ->
   exists msg,
     is_beam_on data d target = (["Invalid target"], Raise (TypeError msg))).
Proof.
  split.
  - intros i f Hd Ht Hf.
    destruct (get_integrated_current_single_found data d target
                default_targets "Daily" false true i f Ht Hf Hd)
      as (row & Hrow & _ & Hq).
    exists row, (fgt0 (Fin (f row))). split; [exact Hrow |].
    split; [unfold is_beam_on; rewrite Hq; reflexivity |].
    cbn. rewrite negb_true_iff. split.
    + intros H. apply Qnot_le_lt. intros Hle.
      apply Qle_bool_iff in Hle. congruence.
    + intros H. destruct (Qle_bool (f row) 0) eqn:E; [| reflexivity].
      apply Qle_bool_iff in E. exfalso. exact (Qlt_not_le _ _ H E).
  - intros Ht. unfold is_beam_on.
    rewrite get_integrated_current_bad_target by assumption.
    cbn. eauto.
Qed.

Lemma is_beam_on_iff_positive_charge_witness :
  exists row b,
    nth_error sample_table 1 = Some row /\
    is_beam_on sample_table 7776 "TS-1" = ([], Ok (Bool b)) /\
    (b = true <-> (0 < mah_ts1 row)%Q).
Proof.
  apply (proj1 (is_beam_on_iff_positive_charge sample_table 7776 "TS-1")
           1%nat mah_ts1); reflexivity.
Defined.

(* ------------------------------------------------------------------ *)
(** ** Derived quantities of a range: the summed query and the series *)













(* ------------------------------------------------------------------ *)
(** ** find_decreasing_value *)

Section FindDecreasing.

Variable strftime : Date -> string -> string.
Variable column : string.

Lemma decreasing_dates_cons d dates v values prev :
  decreasing_dates (d :: dates) (v :: values) prev =
  if negb (Qle_bool prev v)
  then d :: decreasing_dates dates values v
  else decreasing_dates dates values v.
Proof.
  unfold decreasing_dates. cbn [combine filter snd fst].
  destruct (negb (Qle_bool prev v)); reflexivity.
Qed.

Lemma decreasing_dates_nil_l values prev : decreasing_dates [] values prev = [].
Proof. reflexivity. Qed.

Lemma decreasing_dates_nil_r dates prev : decreasing_dates dates [] prev = [].
Proof. destruct dates; reflexivity. Qed.

Lemma find_decreasing_loop_spec values : forall dates prev found,
  find_decreasing_loop strftime column (combine dates values) prev found =
  let ds := decreasing_dates dates values prev in
  ((if found then [] else match ds with
                          | [] => []
                          | _ :: _ => [decreasing_header]
                          end)
   ++ map (decreasing_line strftime column) ds,
   Ok (found || match ds with [] => false | _ :: _ => true end)).
Proof.
  induction values as [| v values IH]; intros dates prev found; cbv zeta.
  - rewrite decreasing_dates_nil_r. destruct dates; cbn;
      destruct found; reflexivity.
  - destruct dates as [| d dates].
    + rewrite decreasing_dates_nil_l. cbn. destruct found; reflexivity.
    + rewrite decreasing_dates_cons. cbn [combine find_decreasing_loop].
      destruct (negb (Qle_bool prev v)).
      * rewrite orb_true_r.
        destruct found; cbn [negb]; unfold print, ret;
          rewrite !bind_pure_l, IH; reflexivity.
      * rewrite IH. reflexivity.
Qed.

Lemma decreasing_dates_monotonic values : forall dates prev,
  List.length dates = List.length values ->
  (decreasing_dates dates values prev = [] <->
   is_monotonic_increasing (prev :: values) = true).
Proof.
  induction values as [| v values IH]; intros dates prev Hlen.
  - rewrite decreasing_dates_nil_r. split; reflexivity.
  - destruct dates as [| d dates]; [discriminate |].
    rewrite decreasing_dates_cons, is_monotonic_increasing_cons.
    injection Hlen as Hlen.
    destruct (Qle_bool prev v); cbn [negb andb].
    + apply IH. exact Hlen.
    + split; discriminate.
Qed.

Lemma find_decreasing_value_result data f :
  cell column = Some f ->
  let ds := decreasing_dates (map date data) (map f data) 0%Q in
  let sorted := is_monotonic_increasing (0%Q :: map f data) in
  find_decreasing_value strftime data column =
    ((if sorted then []
      else decreasing_header :: map (decreasing_line strftime column) ds),
     Ok (negb sorted)) /\
  (sorted = true <-> ds = []).
Proof.
  intros Hf ds sorted.
  assert (Hiff : ds = [] <-> sorted = true).
  { apply decreasing_dates_monotonic. rewrite !length_map. reflexivity. }
  split; [| symmetry; exact Hiff].
  unfold find_decreasing_value, get_column. rewrite Hf, bind_ret_l.
  rewrite find_decreasing_loop_spec. cbv zeta. fold ds.
  destruct sorted.
  - rewrite (proj2 Hiff eq_refl). reflexivity.
  - destruct ds as [| d0 ds']; [| reflexivity].
    assert (false = true) by (apply Hiff; reflexivity). discriminate.
Qed.

(** X15: on a numeric column, [find_decreasing_value] never raises.  It
    compares every value with the one before it and the first value with
    0; it returns [False] and prints nothing when no value is below its
    predecessor, and otherwise returns [True] after printing the header
    once and then one line per decreasing row, with the row's date, in
    table order. *)
Theorem find_decreasing_value_reports data f :
  cell column = Some f ->
  let ds := decreasing_dates (map date data) (map f data) 0%Q in
  let sorted := is_monotonic_increasing (0%Q :: map f data) in
  find_decreasing_value strftime data column =
    ((if sorted then []
      else decreasing_header :: map (decreasing_line strftime column) ds),
     Ok (negb sorted)) /\
  (sorted = true <-> ds = []).
Proof. apply find_decreasing_value_result. Qed.

(** X16: [find_decreasing_value] is at least as strict as
    [is_monotonic_increasing], the test [data_integrity_check] uses:
    where it returns [False] the column is monotonic; the two agree on an
    empty column and on one whose first value is not negative; a
    monotonic column that starts below 0 is reported as decreasing. *)
Theorem find_decreasing_value_vs_monotonic data f found out :
  cell column = Some f ->
  find_decreasing_value strftime data column = (out, Ok found) ->
  (found = false -> is_monotonic_increasing (map f data) = true) /\
  (forall row, nth_error data 0 = Some row ->
     (0 <= f row)%Q ->
     found = negb (is_monotonic_increasing (map f data))) /\
  (forall row, nth_error data 0 = Some row ->
     (f row < 0)%Q -> found = true) /\
  (data = [] -> found = false).
Proof.
  intros Hf Hrun.
  destruct (find_decreasing_value_result data f Hf) as [Hv _].
  assert (Hfound : found =
                   negb (is_monotonic_increasing (0%Q :: map f data)))
    by congruence.
  clear Hv Hrun. subst found.
  destruct data as [| r data].
  - repeat split; try reflexivity; intros row H; discriminate.
  - cbn [map]. rewrite is_monotonic_increasing_cons.
    repeat split.
    + intros H. apply negb_false_iff in H. apply andb_true_iff in H.
      tauto.
    + intros row Hrow Hpos. cbn in Hrow. injection Hrow as <-.
      apply Qle_bool_iff in Hpos. rewrite Hpos. reflexivity.
    + intros row Hrow Hneg. cbn in Hrow. injection Hrow as <-.
      destruct (Qle_bool 0 (f r)) eqn:E; [| reflexivity].
      apply Qle_bool_iff in E. exfalso. exact (Qlt_not_le _ _ Hneg E).
    + discriminate.
Qed.

End FindDecreasing.

Lemma find_decreasing_value_reports_witness :
  find_decreasing_value sample_strftime reset_table
    "Cumulative milliamp-hours (Sync)" =
  ([decreasing_header; "17-Apr-1991 (Cumulative milliamp-hours (Sync))"],
   Ok true).
Proof.
  apply (proj1 (find_decreasing_value_reports sample_strftime
                  "Cumulative milliamp-hours (Sync)" reset_table cum_sync
                  eq_refl)).
Defined.

Lemma find_decreasing_value_vs_monotonic_witness :
  find_decreasing_value sample_strftime [sample_row 48362 7775 (-1) (-1)]
    "Milliamp-hours (TS-1)" =
    ([decreasing_header; "16-Apr-1991 (Milliamp-hours (TS-1))"], Ok true) /\
  is_monotonic_increasing
    (map mah_ts1 [sample_row 48362 7775 (-1) (-1)]) = true /\
  (forall row,
     nth_error [sample_row 48362 7775 (-1) (-1)] 0 = Some row ->
     (mah_ts1 row < 0)%Q -> true = true).
Proof.
  split; [reflexivity |]. split; [reflexivity |].
  apply (find_decreasing_value_vs_monotonic sample_strftime
           "Milliamp-hours (TS-1)" [sample_row 48362 7775 (-1) (-1)]
           mah_ts1 true
           [decreasing_header; "16-Apr-1991 (Milliamp-hours (TS-1))"]
           eq_refl eq_refl).
Defined.

(* ------------------------------------------------------------------ *)
(** ** plot_integrated_current *)

Section Plot.

Variable strftime : Date -> string -> string.

(** X17: the three ways [plot_integrated_current] draws nothing, each
    leaving the world as it was: a target outside [valid_targets] and an
    averaged "Daily" request are refused with a printed line and a normal
    return; but when [get_sliced_data] answers [None] (a date that is not
    in the table, an inverted range, an unknown frequency) the function
    goes on to subscript that [None] and raises a TypeError, after the
    diagnostic of [get_sliced_data]. *)
Theorem plot_draws_nothing
  data s e target valid_targets frequency
  is_averaged is_high_resolution is_shown is_saved date_format file_name w :
  let run :=
    plot_integrated_current strftime data s e target valid_targets
      frequency is_averaged is_high_resolution is_shown is_saved
      date_format file_name w in
  (target_in target valid_targets = false ->
   run = (w, (["Invalid target"], Ok tt))) /\
  (target_in target valid_targets = true ->
   is_averaged = true -> frequency = "Daily"%string ->
   run = (w, ([averaged_daily_message], Ok tt))) /\
  (forall out,
     target_in target valid_targets = true ->
     is_averaged && (frequency =? "Daily")%string = false ->
     get_sliced_data data s e frequency is_averaged = (out, Ok None) ->
     run = (w, (out, Raise not_subscriptable))).
Proof.
  cbv zeta. unfold plot_integrated_current. split; [| split].
  - intros ->. reflexivity.
  - intros -> -> ->. reflexivity.
  - intros out -> -> Hget. cbn [negb].
    unfold plt_bind, lift. rewrite Hget.
    destruct (frequency =? "Daily")%string; cbn; rewrite app_nil_r;
      reflexivity.
Qed.

(** X18: on a valid range, a channel target and a known frequency (not
    averaged "Daily"), [plot_integrated_current] returns normally.  It
    plots, against the dates of the sliced rows ("Daily") or the window
    labels (otherwise), exactly the series that [get_integrated_current]
    returns for the same arguments; the directory "graphs" exists
    afterwards, created if it was missing, also when nothing is saved;
    the figure is saved, and the line "Saved ..." printed, only if
    [is_saved], under the given name or else the default one; and the
    last call is [show] if [is_shown] and [clf] otherwise. *)
Theorem plot_draws_the_queried_series
  data s e target valid_targets frequency
  (is_averaged is_high_resolution is_shown is_saved : bool)
  date_format file_name w i j :
  valid_range data s e i j ->
  target_in target valid_targets = true ->
  In target default_targets ->
  In frequency ["Daily"; "Weekly"; "Monthly"]%string ->
  is_averaged && (frequency =? "Daily")%string = false ->
  exists frame ys,
    get_sliced_data data s e frequency is_averaged =
      ([], Ok (Some frame)) /\
    get_integrated_current data s (Some e) target valid_targets frequency
      is_averaged false = ([], Ok (Some (Array ys))) /\
    let xs := match frame with
              | Records rows => map date rows
              | Resampled buckets => map window_end buckets
              end in
    let name := match file_name with
                | Some name => name
                | None => default_file_name target
                            (strftime s date_format)
                            (strftime e date_format) frequency is_averaged
                end in
    plot_integrated_current strftime data s e target valid_targets
      frequency is_averaged is_high_resolution is_shown is_saved
      date_format file_name w =
    (mkWorld true
       (calls w ++
        (if is_high_resolution then
           rcParams "savefig.dpi" 300 ::
           (if is_shown then [rcParams "figure.dpi" 300] else [])
         else []) ++
        [tight_layout; figure 15 5; xlabel "Date";
         ylabel (target ++ " " ++ frequency ++
                 (if is_averaged
                  then " Average Integrated Current (Milliamp-hours)"
                  else " Integrated Current (Milliamp-hours)"))%string;
         plot xs ys ":o"] ++
        (if graphs_isdir w then [] else [mkdir "graphs"]) ++
        (if is_saved then [savefig name] else []) ++
        [if is_shown then show else clf]),
     ((if is_saved then [("Saved " ++ name)%string] else []), Ok tt)).
Proof.
  intros Hrange Ht Hch Hfreq Hguard.
  destruct (get_sliced_data_valid data s e frequency is_averaged i j
              Hrange Hfreq) as (frame & Hget & Hdaily & Hres).
  destruct (channel_charge target Hch) as (f & g & Hf & Hg & _).
  destruct (column_values_channel frame target Hch) as (ys & Hys & _).
  exists frame, ys. split; [exact Hget |]. split.
  { rewrite get_integrated_current_range, Hget, bind_pure_l, Hys
      by assumption. reflexivity. }
  cbv zeta. unfold plot_integrated_current.
  rewrite Ht, Hguard. cbn [negb].
  assert (Hxs : (if (frequency =? "Daily")%string
                 then date_column (Some frame)
                 else column_keys (Some frame) (col_mah target)) =
                ([], Ok match frame with
                        | Records rows => map date rows
                        | Resampled buckets => map window_end buckets
                        end)).
  { destruct (String.eqb_spec frequency "Daily") as [E | E].
    - rewrite (Hdaily E). reflexivity.
    - rewrite (Hres E). unfold column_keys. rewrite Hg. reflexivity. }
  unfold plt_bind at 1. unfold lift at 1. rewrite Hget.
  unfold plt_bind at 1. unfold lift at 1. rewrite Hxs.
  unfold plt_bind at 1. unfold lift at 1.
  unfold subscript_values. rewrite Hys.
  destruct w as [isdir done].
  destruct is_averaged, is_high_resolution, is_shown, is_saved, isdir,
    file_name as [name |];
    cbn; rewrite <- ?app_assoc; reflexivity.
Qed.

End Plot.

Lemma plot_draws_nothing_witness :
  plot_integrated_current sample_strftime sample_table 7000 7777 "TS-1"
    default_targets "Daily" false false false true "%d-%b-%Y" None
    (fresh_world false) =
  (fresh_world false, (["Invalid start_date"], Raise not_subscriptable)).
Proof.
  apply (proj2 (proj2 (plot_draws_nothing sample_strftime sample_table
                         7000 7777 "TS-1" default_targets "Daily" false
                         false false true "%d-%b-%Y" None
                         (fresh_world false)))
           ["Invalid start_date"]); reflexivity.
Defined.

Lemma plot_draws_the_queried_series_witness :
  exists frame ys,
    get_sliced_data sample_table 7775 7777 "Daily" false =
      ([], Ok (Some frame)) /\
    get_integrated_current sample_table 7775 (Some 7777) "TS-1"
      default_targets "Daily" false false = ([], Ok (Some (Array ys))) /\
    let xs := match frame with
              | Records rows => map date rows
              | Resampled buckets => map window_end buckets
              end in
    let name := default_file_name "TS-1" "16-Apr-1991" "18-Apr-1991"
                  "Daily" false in
    plot_integrated_current sample_strftime sample_table 7775 7777 "TS-1"
      default_targets "Daily" false false false true "%d-%b-%Y" None
      (fresh_world false) =
    (mkWorld true
       ([] ++ [] ++
        [tight_layout; figure 15 5; xlabel "Date";
         ylabel "TS-1 Daily Integrated Current (Milliamp-hours)";
         plot xs ys ":o"] ++
        [mkdir "graphs"] ++ [savefig name] ++ [clf]),
     ([("Saved " ++ name)%string], Ok tt)).
Proof.
  apply (plot_draws_the_queried_series sample_strftime sample_table
           7775 7777 "TS-1" default_targets "Daily" false false false true
           "%d-%b-%Y" None (fresh_world false) 0 2).
  - repeat split. lia.
  - reflexivity.
  - right. left. reflexivity.
  - left. reflexivity.
  - reflexivity.
Defined.

(* ------------------------------------------------------------------ *)
(** ** Averages over a range with an empty window *)

Lemma arithmetic_sum_nan xs : In NaN xs -> arithmetic_sum xs = NaN.
Proof.
  induction xs as [| x xs IH]; intros Hin; [destruct Hin |].
  cbn. destruct Hin as [-> | Hin]; [reflexivity |].
  unfold arithmetic_sum in IH. rewrite (IH Hin). destruct x; reflexivity.
Qed.

(** X19: when some calendar window between the first and the last
    populated one holds no sliced row, the averaged "Weekly" or "Monthly"
    query with [is_summed] returns NaN: the empty window's mean is NaN
    and the sum carries it. *)
Theorem averaged_total_over_empty_window_is_nan
  data s e target valid_targets frequency i j f lo hi k :
  valid_range data s e i j ->
  target_in target valid_targets = true ->
  charge target = Some f ->
  In frequency ["Weekly"; "Monthly"]%string ->
  first_window (rule_of frequency) (iloc data i (j + 1)) = Some lo ->
  last_window (rule_of frequency) (iloc data i (j + 1)) = Some hi ->
  lo <= k <= hi ->
  members (rule_of frequency) (iloc data i (j + 1)) k = [] ->
  get_integrated_current data s (Some e) target valid_targets frequency
    true true = ([], Ok (Some (Scalar NaN))).
Proof.
  intros Hrange Ht Hf Hfreq Hlo Hhi Hk Hempty. unfold charge in Hf.
  destruct (cell_bucket_cell _ f Hf) as (g & Hg & Hpair).
  assert (Hnd : frequency <> "Daily"%string).
  { destruct Hfreq as [<- | [<- | []]]; discriminate. }
  destruct (get_sliced_data_valid data s e frequency true i j Hrange
              (or_intror Hfreq)) as (frame & Hget & _ & Hres).
  rewrite get_integrated_current_range, Hget, bind_pure_l by assumption.
  rewrite (Hres Hnd). unfold column_values. rewrite Hg.
  cbn [bind ret fst snd app]. rewrite np_sum_arithmetic.
  rewrite arithmetic_sum_nan; [reflexivity |].
  unfold resample. rewrite Hlo, Hhi. unfold resample_mean.
  rewrite !map_map. apply in_map_iff. exists k.
  split; [| apply Zrange_In; exact Hk].
  cbn [fst snd]. rewrite Hpair, Hempty. reflexivity.
Qed.

Lemma averaged_total_over_empty_window_is_nan_witness :
  get_integrated_current sample_table 7775 (Some 7805) "TS-1"
    default_targets "Weekly" true true = ([], Ok (Some (Scalar NaN))).
Proof.
  apply (averaged_total_over_empty_window_is_nan sample_table 7775 7805
           "TS-1" default_targets "Weekly" 0 3 mah_ts1 1111 1115 1112).
  - repeat split. lia.
  - reflexivity.
  - reflexivity.
  - left. reflexivity.
  - reflexivity.
  - reflexivity.
  - lia.
  - reflexivity.
Defined.
